(** * The device tracker of [loc.py]

    A shallow embedding of the class [DeviceTracker] (network discovery,
    the tracked-device registry, the presence poller with its append-only
    log file and the summary reporter) and the properties its
    specification states about it.

    Conventions of the embedding.
    - A Python [str] is a [string]: a sequence of code points below 256.
    - A device is the Python [dict] the code builds and reads, with string
      keys and string values: a [gmap string string].  [d !! k] is
      [d.get(k)]; [d[k]] raises [KeyError] when the key is absent.
    - Times ([time.time()], [interval], [duration]) are integers, counted
      in ticks of the clock.
    - The world outside the interpreter (platform, external processes,
      clock, log file, console) is an explicit state [World] driven by a
      script [Env] that answers the n-th call of each kind.
    - Every exception of the model is a subclass of [Exception]; signals
      such as [KeyboardInterrupt] are outside the model. *)

From stdpp Require Import gmap strings list fin_maps.
From Stdlib Require Import ZArith Ascii String Lia Sorted.

Open Scope string_scope.
Open Scope Z_scope.

Abbreviation Device := (gmap string string).

(** ** Python strings *)

Module PyStr.

(** The newline character, as a one-character string. *)
Definition nl : string := String (ascii_of_nat 10) EmptyString.

(** [str.isspace] on one code point below 256. *)
Definition is_space (c : ascii) : bool :=
  let n := nat_of_ascii c in
  ((9 <=? n)%nat && (n <=? 13)%nat) || ((28 <=? n)%nat && (n <=? 32)%nat)
  || (n =? 133)%nat || (n =? 160)%nat.

Definition lower_char (c : ascii) : ascii :=
  let n := nat_of_ascii c in
  if ((65 <=? n)%nat && (n <=? 90)%nat)
     || ((192 <=? n)%nat && (n <=? 222)%nat && negb (n =? 215)%nat)
  then ascii_of_nat (n + 32) else c.

(** [s.lower()] *)
Fixpoint lower (s : string) : string :=
  match s with
  | EmptyString => EmptyString
  | String c s' => String (lower_char c) (lower s')
  end.

Definition snoc (s : string) (c : ascii) : string := s ++ String c EmptyString.

(** [s.split()]: the maximal runs of characters that are not white
    space; [cur] is the run being read. *)
Fixpoint split_ws_from (cur : string) (s : string) : list string :=
  match s with
  | EmptyString => if String.eqb cur "" then [] else [cur]
  | String c s' =>
      if is_space c
      then (if String.eqb cur "" then split_ws_from "" s'
            else cur :: split_ws_from "" s')
      else split_ws_from (snoc cur c) s'
  end.

Definition split_ws (s : string) : list string := split_ws_from "" s.

(** [s.split(sep)] for a separator that is not empty: the pieces between
    the occurrences of [sep], read from the left.  [skip] counts the
    characters of a separator just found that are still to be passed;
    [cur] is the piece being read. *)
Fixpoint split_from (sep : string) (skip : nat) (cur : string) (s : string)
  : list string :=
  match s with
  | EmptyString => [cur]
  | String c s' =>
      match skip with
      | S k => split_from sep k cur s'
      | O =>
          if String.prefix sep s
          then cur :: split_from sep (String.length sep - 1) "" s'
          else split_from sep 0 (snoc cur c) s'
      end
  end.

Definition split (sep s : string) : list string := split_from sep 0 "" s.

(** [sub in s] *)
Fixpoint contains (sub s : string) : bool :=
  String.prefix sub s ||
  match s with
  | EmptyString => false
  | String _ s' => contains sub s'
  end.

End PyStr.

(** ** Exceptions and results *)

Inductive exn : Type :=
| KeyError (key : string)
| IndexError
| UnboundLocalError (var : string)
| ValueError (msg : string)
| FileNotFoundError (msg : string)
| CalledProcessError (returncode : Z)
| OSError (msg : string)
| OtherException (msg : string).

Definition is_FileNotFoundError (e : exn) : bool :=
  match e with FileNotFoundError _ => true | _ => false end.

(** [except Exception]: every exception of the model. *)
Definition is_Exception (e : exn) : bool := true.

Inductive result (A : Type) : Type :=
| Ok (a : A)
| Raise (e : exn).
Arguments Ok {A} a.
Arguments Raise {A} e.

(** [l[-1]] *)
Definition last_item {A} (l : list A) : result A :=
  match last l with Some x => Ok x | None => Raise IndexError end.

(** [l[i]] for [i >= 0] *)
Definition item {A} (l : list A) (i : nat) : result A :=
  match l !! i with Some x => Ok x | None => Raise IndexError end.

(** [x or y] on the results of [dict.get]: [None] and the empty string are
    false. *)
Definition py_or (x y : option string) : option string :=
  match x with
  | Some s => if String.eqb s "" then y else x
  | None => y
  end.

(** ** Observations *)

(** The dict [device_status] of one poll tick. *)
Record Observation : Type := mkObservation {
  timestamp : Z;
  ip : string;
  mac : string;
  online : bool
}.

(** ** Library functions left abstract

    The text these functions of the Python runtime produce is not fixed by
    the program. *)
Class PyRuntime : Type := {
  (** [json.dumps] of a [device_status] dict *)
  json_dumps : Observation -> string;
  (** [time.ctime] *)
  ctime : Z -> string;
  (** [str(d)] of a device dict *)
  dict_str : Device -> string;
  (** [str(e)] of an exception *)
  exn_str : exn -> string
}.

(** ** The environment and the state of the world *)

(** The script of the environment: what the platform is and how the n-th
    call of each kind answers ([n] counts from 0). *)
Record Env : Type := {
  (** [platform.system()] *)
  system_name : string;
  (** [subprocess.check_output(argv, universal_newlines=True)] *)
  scan_tool : list string -> nat -> result string;
  (** [subprocess.run(argv, ...)]: the return code of the process *)
  ping_tool : list string -> nat -> result Z;
  (** the time the n-th ping takes *)
  ping_lag : nat -> Z;
  (** [open(log_file, 'a')] and the write: [None] when they succeed *)
  file_fault : nat -> option exn;
  (** how much longer than asked the n-th sleep lasts *)
  oversleep : nat -> Z
}.

(** The clock never runs backwards and a sleep lasts at least as long as
    asked. *)
Definition env_sane (env : Env) : Prop :=
  forall n : nat, 0 <= ping_lag env n /\ 0 <= oversleep env n.

Record World : Type := mkWorld {
  (** [self.tracked_devices] *)
  tracked_devices : list Device;
  (** [self.device_logs] *)
  device_logs : list Observation;
  (** the content of the file [self.log_file] *)
  log_content : string;
  (** the arguments of the calls of [print], oldest first *)
  console : list string;
  (** what [time.time()] returns *)
  now : Z;
  (** the number of scans, pings, file writes and sleeps so far *)
  scans : nat;
  pings : nat;
  writes : nat;
  sleeps : nat
}.

(** [DeviceTracker()] in a world where the log file holds [content] and
    the clock shows [t]. *)
Definition init (content : string) (t : Z) : World :=
  mkWorld [] [] content [] t 0 0 0 0.

Definition set_tracked_devices (l : list Device) (w : World) : World :=
  mkWorld l (device_logs w) (log_content w) (console w) (now w)
          (scans w) (pings w) (writes w) (sleeps w).

Definition set_device_logs (l : list Observation) (w : World) : World :=
  mkWorld (tracked_devices w) l (log_content w) (console w) (now w)
          (scans w) (pings w) (writes w) (sleeps w).

Definition set_console (c : list string) (w : World) : World :=
  mkWorld (tracked_devices w) (device_logs w) (log_content w) c (now w)
          (scans w) (pings w) (writes w) (sleeps w).

(** ** The monad of statements: state and exceptions *)

Definition M (A : Type) : Type := World -> result A * World.

Definition ret {A} (a : A) : M A := fun w => (Ok a, w).

Definition raise {A} (e : exn) : M A := fun w => (Raise e, w).

Definition bind {A B} (m : M A) (k : A -> M B) : M B :=
  fun w =>
    match m w with
    | (Ok a, w') => k a w'
    | (Raise e, w') => (Raise e, w')
    end.

Definition lift {A} (r : result A) : M A := fun w => (r, w).

(** [try: body except <class> as e: handler e]; what [body] did before it
    raised stays done. *)
Definition try_except {A} (body : M A) (class : exn -> bool)
    (handler : exn -> M A) : M A :=
  fun w =>
    match body w with
    | (Ok a, w') => (Ok a, w')
    | (Raise e, w') => if class e then handler e w' else (Raise e, w')
    end.

Declare Scope py_scope.
Delimit Scope py_scope with py.
Notation "'let*' x ':=' m 'in' k" := (bind m (fun x => k))
  (at level 10, x name, m at level 100, k at level 200) : py_scope.
Notation "m ';;' k" := (bind m (fun _ => k))
  (at level 100, k at level 200, right associativity) : py_scope.
Open Scope py_scope.

(** [for x in l: body x] *)
Fixpoint for_each {A} (l : list A) (body : A -> M unit) : M unit :=
  match l with
  | [] => ret tt
  | x :: l' => body x ;; for_each l' body
  end.

(** [while cond: body], for at most [fuel] tests of the condition; [None]
    when the fuel does not suffice. *)
Fixpoint while (fuel : nat) (cond : M bool) (body : M unit)
    (w : World) : option (result unit * World) :=
  match fuel with
  | O => None
  | S fuel' =>
      match cond w with
      | (Raise e, w1) => Some (Raise e, w1)
      | (Ok false, w1) => Some (Ok tt, w1)
      | (Ok true, w1) =>
          match body w1 with
          | (Raise e, w2) => Some (Raise e, w2)
          | (Ok _, w2) => while fuel' cond body w2
          end
      end
  end.

(** [d[k]] *)
Definition getitem (d : Device) (k : string) : M string :=
  match d !! k with
  | Some v => ret v
  | None => raise (KeyError k)
  end.

Definition print (s : string) : M unit :=
  fun w => (Ok tt, set_console (console w ++ [s]) w).

(** ** The class [DeviceTracker] *)

Section DeviceTracker.

Context {RT : PyRuntime} (env : Env).

(** *** Calls into the world *)

Definition platform_system : M string := ret (system_name env).

Definition time_time : M Z := fun w => (Ok (now w), w).

(** [subprocess.check_output(argv, universal_newlines=True)] *)
Definition check_output (argv : list string) : M string :=
  fun w =>
    (scan_tool env argv (scans w),
     mkWorld (tracked_devices w) (device_logs w) (log_content w) (console w)
             (now w) (S (scans w)) (pings w) (writes w) (sleeps w)).

(** [subprocess.run(argv, capture_output=True, text=True).returncode] *)
Definition subprocess_run (argv : list string) : M Z :=
  fun w =>
    (ping_tool env argv (pings w),
     mkWorld (tracked_devices w) (device_logs w) (log_content w) (console w)
             (now w + ping_lag env (pings w))
             (scans w) (S (pings w)) (writes w) (sleeps w)).

(** [with open(self.log_file, 'a') as f: f.write(text)]; an attempt that
    fails leaves the file as it was. *)
Definition append_to_log_file (text : string) : M unit :=
  fun w =>
    match file_fault env (writes w) with
    | Some e =>
        (Raise e,
         mkWorld (tracked_devices w) (device_logs w) (log_content w)
                 (console w) (now w)
                 (scans w) (pings w) (S (writes w)) (sleeps w))
    | None =>
        (Ok tt,
         mkWorld (tracked_devices w) (device_logs w) (log_content w ++ text)
                 (console w) (now w)
                 (scans w) (pings w) (S (writes w)) (sleeps w))
    end.

(** [time.sleep(secs)] *)
Definition time_sleep (secs : Z) : M unit :=
  fun w =>
    if secs <? 0
    then (Raise (ValueError "sleep length must be non-negative"), w)
    else
      (Ok tt,
       mkWorld (tracked_devices w) (device_logs w) (log_content w) (console w)
               (now w + secs + oversleep env (sleeps w))
               (scans w) (pings w) (writes w) (S (sleeps w))).

(** *** [detect_network_devices] *)

Definition new_device (ip mac type : string) : Device :=
  <["ip" := ip]> (<["mac" := mac]> (<["type" := type]> ∅)).

(** The loop over [lines[3:]] of the output of [arp -a]. *)
Fixpoint arp_rows (lines : list string) (discovered_devices : list Device)
  : list Device :=
  match lines with
  | [] => discovered_devices
  | line :: rest =>
      match PyStr.split_ws line with
      | p0 :: p1 :: p2 :: _ =>
          arp_rows rest (discovered_devices ++ [new_device p0 p1 p2])
      | _ => arp_rows rest discovered_devices
      end
  end.

(** The loop over the lines of the output of [nmap]: [ip] is the local
    variable of that name, [None] while it is unbound.  Returns the list
    as the loop left it and the exception that ended the loop, if any. *)
Fixpoint nmap_rows (lines : list string) (ip : option string)
    (discovered_devices : list Device) : list Device * option exn :=
  match lines with
  | [] => (discovered_devices, None)
  | line :: rest =>
      if PyStr.contains "Nmap scan report for" line then
        match last_item (PyStr.split_ws line) with
        | Ok a => nmap_rows rest (Some a) discovered_devices
        | Raise e => (discovered_devices, Some e)
        end
      else if PyStr.contains "MAC Address:" line then
        match item (PyStr.split "MAC Address: " line) 1 with
        | Raise e => (discovered_devices, Some e)
        | Ok tail =>
            match item (PyStr.split_ws tail) 0 with
            | Raise e => (discovered_devices, Some e)
            | Ok mac =>
                match ip with
                | None => (discovered_devices, Some (UnboundLocalError "ip"))
                | Some a =>
                    nmap_rows rest ip
                      (discovered_devices ++ [new_device a mac "Unknown"])
                end
            end
        end
      else nmap_rows rest ip discovered_devices
  end.

(** The inner [try] of the nmap branch: the value is the list
    [discovered_devices] as the block left it. *)
Definition nmap_scan : M (list Device) :=
  fun w =>
    match check_output ["nmap"; "-sn"; "192.168.1.0/24"] w with
    | (Raise e, w1) =>
        if is_FileNotFoundError e
        then (print
                "Nmap not installed. Please install nmap for network scanning.";;
              ret []) w1
        else (Raise e, w1)
    | (Ok output, w1) =>
        match nmap_rows (PyStr.split PyStr.nl output) None [] with
        | (discovered_devices, None) => (Ok discovered_devices, w1)
        | (discovered_devices, Some e) =>
            if is_FileNotFoundError e
            then (print
                    "Nmap not installed. Please install nmap for network scanning.";;
                  ret discovered_devices) w1
            else (Raise e, w1)
        end
    end.

Definition detect_network_devices : M (list Device) :=
  let* name := platform_system in
  let system := PyStr.lower name in
  try_except
    (if String.eqb system "windows" then
       let* output := check_output ["arp"; "-a"] in
       let lines := PyStr.split PyStr.nl output in
       ret (arp_rows (drop 3 lines) [])
     else if String.eqb system "linux" || String.eqb system "darwin" then
       nmap_scan
     else
       print ("Unsupported OS: " ++ system);;
       ret [])
    is_Exception
    (fun e =>
       print ("Error detecting network devices: " ++ exn_str e);;
       ret []).

(** *** [add_device_to_track] *)

(** [d.get('ip') or d.get('mac')] *)
Definition identity_key (d : Device) : option string :=
  py_or (d !! "ip") (d !! "mac").

(** [next((device for device in network_devices
           if device['ip'] == x or device['mac'] == x), None)] *)
Fixpoint next_match (x : string) (network_devices : list Device)
  : result (option Device) :=
  match network_devices with
  | [] => Ok None
  | device :: rest =>
      match device !! "ip" with
      | None => Raise (KeyError "ip")
      | Some a =>
          if String.eqb a x then Ok (Some device)
          else
            match device !! "mac" with
            | None => Raise (KeyError "mac")
            | Some m =>
                if String.eqb m x then Ok (Some device)
                else next_match x rest
            end
      end
  end.

(** The truth value of [matching_device]: [None] and the empty dict are
    false. *)
Definition truthy (o : option Device) : bool :=
  match o with
  | None => false
  | Some d => negb (bool_decide (d = ∅))
  end.

Definition add_device_to_track (device_identifier : string) : M bool :=
  if String.eqb device_identifier "" then
    print "Invalid device identifier";;
    ret false
  else
    fun w =>
      if bool_decide (Some device_identifier ∈ map identity_key (tracked_devices w))
      then (print "Device is already being tracked";; ret false) w
      else
        (let* network_devices := detect_network_devices in
         let* matching_device := lift (next_match device_identifier network_devices) in
         match matching_device with
         | Some d =>
             if truthy matching_device then
               (fun w' => (Ok tt, set_tracked_devices (tracked_devices w' ++ [d]) w'));;
               print ("Added device to tracking: " ++ dict_str d);;
               ret true
             else
               print ("Could not find device " ++ device_identifier ++ " on network");;
               ret false
         | None =>
             print ("Could not find device " ++ device_identifier ++ " on network");;
             ret false
         end) w.

(** *** [track_device] *)

(** [['ping', param, '4', target]] *)
Definition ping_argv (name target : string) : list string :=
  let param := if String.eqb (PyStr.lower name) "windows" then "-n" else "-c" in
  ["ping"; param; "4"; target].

(** The body of the [try] block of one tick. *)
Definition poll (device : Device) : M unit :=
  let* name := platform_system in
  let* target := getitem device "ip" in
  let* returncode := subprocess_run (ping_argv name target) in
  let* t := time_time in
  let* a := getitem device "ip" in
  let device_status :=
    {| timestamp := t;
       ip := a;
       mac := default "Unknown" (device !! "mac");
       online := (returncode =? 0) |} in
  (fun w => (Ok tt, set_device_logs (device_logs w ++ [device_status]) w));;
  append_to_log_file (json_dumps device_status ++ PyStr.nl);;
  let* shown := getitem device "ip" in
  print ("Device " ++ shown ++ " status: "
         ++ (if online device_status then "Online" else "Offline")).

(** The [except Exception as e] block of one tick. *)
Definition report (device : Device) (e : exn) : M unit :=
  let* shown := getitem device "ip" in
  print ("Error tracking device " ++ shown ++ ": " ++ exn_str e).

(** One pass through the body of the [while] loop. *)
Definition tick (device : Device) (interval : Z) : M unit :=
  try_except (poll device) is_Exception (report device);;
  time_sleep interval.

(** [time.time() - start_time < duration] *)
Definition within (start_time duration : Z) : M bool :=
  let* t := time_time in
  ret (t - start_time <? duration).

Definition track_device (fuel : nat) (device : Device)
    (interval duration : Z) (w : World) : option (result unit * World) :=
  match (let* start_time := time_time in
         print ("Starting tracking for device: " ++ dict_str device);;
         ret start_time) w with
  | (Raise e, w1) => Some (Raise e, w1)
  | (Ok start_time, w1) =>
      while fuel (within start_time duration) (tick device interval) w1
  end.

(** *** [display_tracking_summary] *)

Definition display_tracking_summary : M unit :=
  fun w =>
    match device_logs w with
    | [] => print "No device tracking data available." w
    | _ :: _ =>
        (print (PyStr.nl ++ "--- Device Tracking Summary ---");;
         for_each (device_logs w) (fun log =>
           print ("Time: " ++ ctime (timestamp log));;
           print ("IP: " ++ ip log);;
           print ("MAC: " ++ mac log);;
           print ("Status: " ++ (if online log then "Online" else "Offline"));;
           print "---")) w
    end.

End DeviceTracker.

(** ** The program [main] *)

Section Program.

Context {RT : PyRuntime} (env : Env).

(** [tracker.tracked_devices[0]] *)
Definition first_tracked : M Device :=
  fun w => (item (tracked_devices w) 0, w).

(** [for device in network_devices: print(f"IP: ..., MAC: ...")] *)
Definition print_discovered (network_devices : list Device) : M unit :=
  for_each network_devices (fun device =>
    let* a := getitem device "ip" in
    let* m := getitem device "mac" in
    print ("IP: " ++ a ++ ", MAC: " ++ m)).

(** The statements of [main] up to the call of [track_device]: the value
    is the device to track, [None] when the request was refused.  [typed]
    is the line [input] returns; its prompt, which [input] writes without
    a newline, is recorded on the console as one entry. *)
Definition main_select (typed : string) : M (option Device) :=
  print "Scanning network for devices...";;
  let* network_devices := detect_network_devices env in
  print (PyStr.nl ++ "Discovered Devices:");;
  print_discovered network_devices;;
  print (PyStr.nl ++ "Enter the IP of the device you want to track: ");;
  let target_device_ip := typed in
  let* added := add_device_to_track env target_device_ip in
  if added then
    let* device := first_tracked in
    ret (Some device)
  else ret None.

(** [main()], with the fuel of its one call of [track_device]; the
    tracker is created anew: no device is tracked and the log in memory is
    empty. *)
Definition main (fuel : nat) (typed : string) (w : World)
  : option (result unit * World) :=
  let tracker := set_tracked_devices [] (set_device_logs [] w) in
  match main_select typed tracker with
  | (Raise e, w1) => Some (Raise e, w1)
  | (Ok None, w1) => Some (Ok tt, w1)
  | (Ok (Some device), w1) =>
      match track_device env fuel device 60 3600 w1 with
      | None => None
      | Some (Raise e, w2) => Some (Raise e, w2)
      | Some (Ok _, w2) => Some (display_tracking_summary w2)
      end
  end.

End Program.

(** ** A sample runtime and sample environments *)

Module Sample.

Definition runtime : PyRuntime := {|
  json_dumps o :=
    "{" ++ ip o ++ "," ++ mac o ++ "," ++ (if online o then "true" else "false") ++ "}";
  ctime t := "t";
  dict_str d := default "?" (d !! "ip");
  exn_str e := "error"
|}.

Definition arp_output : string :=
  PyStr.nl ++
  "Interface: 192.168.1.10 --- 0x3" ++ PyStr.nl ++
  "  Internet Address      Physical Address      Type" ++ PyStr.nl ++
  "  192.168.1.50          aa-bb-cc-dd-ee-ff     dynamic" ++ PyStr.nl ++
  "  192.168.1.1           00-11-22-33-44-55     dynamic" ++ PyStr.nl.

Definition nmap_output : string :=
  "Starting Nmap 7.80" ++ PyStr.nl ++
  "Nmap scan report for 192.168.1.50" ++ PyStr.nl ++
  "Host is up (0.0010s latency)." ++ PyStr.nl ++
  "MAC Address: AA:BB:CC:DD:EE:FF (Vendor)" ++ PyStr.nl ++
  "Nmap done: 256 IP addresses (1 host up)" ++ PyStr.nl.

(** A Windows host whose [arp -a] prints [arp_output], whose pings answer
    at once with return code 0, whose log file can be written. *)
Definition windows : Env := {|
  system_name := "Windows";
  scan_tool _ _ := Ok arp_output;
  ping_tool _ _ := Ok 0;
  ping_lag _ := 0;
  file_fault _ := None;
  oversleep _ := 0
|}.

Definition linux : Env := {|
  system_name := "Linux";
  scan_tool _ _ := Ok nmap_output;
  ping_tool _ _ := Ok 0;
  ping_lag _ := 0;
  file_fault _ := None;
  oversleep _ := 0
|}.


(** A Linux host without [nmap] and without [ping]. *)
Definition bare : Env := {|
  system_name := "Linux";
  scan_tool _ _ := Raise (FileNotFoundError "nmap");
  ping_tool _ _ := Raise (FileNotFoundError "ping");
  ping_lag _ := 0;
  file_fault _ := None;
  oversleep _ := 0
|}.

(** A platform the scan does not know. *)
Definition other_platform : Env := {|
  system_name := "Java";
  scan_tool _ _ := Ok "";
  ping_tool _ _ := Ok 0;
  ping_lag _ := 0;
  file_fault _ := None;
  oversleep _ := 0
|}.

(** A Linux host whose [nmap] prints a MAC line before any report line. *)
Definition garbled : Env := {|
  system_name := "Linux";
  scan_tool _ _ := Ok ("MAC Address: AA:BB:CC:DD:EE:FF (Vendor)" ++ PyStr.nl);
  ping_tool _ _ := Ok 0;
  ping_lag _ := 0;
  file_fault _ := None;
  oversleep _ := 0
|}.

(** A Linux host whose [nmap] reports one device in full and then prints
    a MAC line that has no address. *)
Definition half_parsed : Env := {|
  system_name := "Linux";
  scan_tool _ _ :=
    Ok ("Nmap scan report for 192.168.1.50" ++ PyStr.nl ++
        "MAC Address: AA:BB:CC:DD:EE:FF (Vendor)" ++ PyStr.nl ++
        "Nmap scan report for 192.168.1.51" ++ PyStr.nl ++
        "MAC Address:" ++ PyStr.nl);
  ping_tool _ _ := Ok 0;
  ping_lag _ := 0;
  file_fault _ := None;
  oversleep _ := 0
|}.

(** A Windows host without [arp]. *)
Definition no_arp : Env := {|
  system_name := "Windows";
  scan_tool _ _ := Raise (FileNotFoundError "arp");
  ping_tool _ _ := Ok 0;
  ping_lag _ := 0;
  file_fault _ := None;
  oversleep _ := 0
|}.

(** The Windows host with a log file that can be written every second
    time only, and pings that take one tick of the clock. *)
Definition flaky : Env := {|
  system_name := "Windows";
  scan_tool _ _ := Ok arp_output;
  ping_tool _ n := Ok (Z.of_nat n);
  ping_lag _ := 1;
  file_fault n := if Nat.even n then Some (OSError "Disk full") else None;
  oversleep _ := 0
|}.

(** The device of the scenario of the specification. *)
Definition device : Device :=
  new_device "192.168.1.50" "AA:BB:CC:DD:EE:FF" "Unknown".

End Sample.

(** ** Notions used by the statements *)

(** The device [d] answers to the identifier [x]: [x] is its ip or its
    mac. *)
Definition answers (x : string) (d : Device) : Prop :=
  d !! "ip" = Some x \/ d !! "mac" = Some x.

(** A device as a scan builds it: the keys [ip] and [mac] are there. *)
Definition scanned (d : Device) : Prop :=
  is_Some (d !! "ip") /\ is_Some (d !! "mac").

(** The platforms [detect_network_devices] knows. *)
Definition supported (name : string) : bool :=
  String.eqb (PyStr.lower name) "windows"
  || (String.eqb (PyStr.lower name) "linux"
      || String.eqb (PyStr.lower name) "darwin").

(** The command a scan runs on a supported platform. *)
Definition scan_argv (name : string) : list string :=
  if String.eqb (PyStr.lower name) "windows"
  then ["arp"; "-a"]
  else ["nmap"; "-sn"; "192.168.1.0/24"].

(** The identity keys of the tracked devices. *)
Definition tracked_keys (w : World) : list (option string) :=
  map identity_key (tracked_devices w).

(** The tracker object and the clock are the same in both worlds. *)
Definition same_tracker (w w' : World) : Prop :=
  tracked_devices w' = tracked_devices w /\
  device_logs w' = device_logs w /\
  log_content w' = log_content w /\
  now w' = now w.

(** The observation a tick builds for [device], whose ip is [a], from the
    return code [rc] of the ping at time [t]. *)
Definition observed (device : Device) (a : string) (rc t : Z) : Observation :=
  {| timestamp := t;
     ip := a;
     mac := default "Unknown" (device !! "mac");
     online := (rc =? 0) |}.

(** The line of the log file for one observation. *)
Definition log_line {RT : PyRuntime} (o : Observation) : string :=
  json_dumps o ++ PyStr.nl.

(** The lines of the log file for a list of observations, in order. *)
Fixpoint log_lines {RT : PyRuntime} (l : list Observation) : string :=
  match l with
  | [] => ""
  | o :: l' => log_line o ++ log_lines l'
  end.

(** The file holds, after what it held when the tracker was created, the
    line of every observation in memory, in the same order. *)
Definition in_step {RT : PyRuntime} (w : World) : Prop :=
  exists before : string, log_content w = before ++ log_lines (device_logs w).

(** The observation [o] is one that a tick of [device] builds: from the
    ip and the mac of the device and the return code of one of the pings
    of the script. *)
Definition built_by (env : Env) (device : Device) (o : Observation) : Prop :=
  exists (a : string) (rc : Z) (n : nat) (t : Z),
    device !! "ip" = Some a /\
    ping_tool env (ping_argv (system_name env) a) n = Ok rc /\
    o = observed device a rc t.

(** What a tick prints when its [try] block raised [e]. *)
Definition error_line {RT : PyRuntime} (a : string) (e : exn) : string :=
  "Error tracking device " ++ a ++ ": " ++ exn_str e.

(** The heading of a summary that is not empty. *)
Definition summary_heading : string :=
  PyStr.nl ++ "--- Device Tracking Summary ---".

(** The block the summary prints for one observation. *)
Definition record_block {RT : PyRuntime} (o : Observation) : list string :=
  ["Time: " ++ ctime (timestamp o);
   "IP: " ++ ip o;
   "MAC: " ++ mac o;
   "Status: " ++ (if online o then "Online" else "Offline");
   "---"].

(** A device as a scan really builds it: ip, mac and type are there, and
    ip and mac are not empty. *)
Definition wellformed (d : Device) : Prop :=
  exists a m : string,
    d !! "ip" = Some a /\ d !! "mac" = Some m /\ is_Some (d !! "type") /\
    a <> "" /\ m <> "".

(** The device a line of the table of [arp -a] stands for: a line of at
    least three fields gives its first three fields, another line none. *)
Definition arp_row (line : string) : option Device :=
  match PyStr.split_ws line with
  | p0 :: p1 :: p2 :: _ => Some (new_device p0 p1 p2)
  | _ => None
  end.

(** The world after one more scan. *)
Definition after_scan (w : World) : World :=
  mkWorld (tracked_devices w) (device_logs w) (log_content w) (console w)
          (now w) (S (scans w)) (pings w) (writes w) (sleeps w).

(** What a scan prints when the tool or the parsing raised [e]. *)
Definition scan_error_line {RT : PyRuntime} (e : exn) : string :=
  "Error detecting network devices: " ++ exn_str e.

(** What the first line of [track_device] prints. *)
Definition starting_line {RT : PyRuntime} (device : Device) : string :=
  "Starting tracking for device: " ++ dict_str device.

(** What the summary prints for a log. *)
Definition summary_lines {RT : PyRuntime} (l : list Observation) : list string :=
  match l with
  | [] => ["No device tracking data available."]
  | _ :: _ => summary_heading :: List.concat (map record_block l)
  end.

(** * Properties *)

Section Discovery.

Context {RT : PyRuntime} (env : Env).

Ltac scan_failed :=
  eexists _, _; split; [reflexivity|]; split; [constructor|];
  split; [repeat split|]; right; split; [reflexivity|];
  eexists; reflexivity.

Lemma new_device_scanned (a m t : string) : scanned (new_device a m t).
Proof. split; eexists; reflexivity. Qed.

Lemma arp_rows_scanned (lines : list string) :
  forall acc : list Device,
    Forall scanned acc -> Forall scanned (arp_rows lines acc).
Proof.
  induction lines as [|line rest IH]; intros acc Hacc; simpl; [exact Hacc|].
  destruct (PyStr.split_ws line) as [|p0 [|p1 [|p2 ps]]]; try (apply IH; exact Hacc).
  apply IH. apply Forall_app. split; [exact Hacc|].
  constructor; [apply new_device_scanned | constructor].
Qed.

(** The loop over the output of nmap builds scanned devices and ends,
    when it raises, on an [IndexError] or on the unbound [ip]. *)
Lemma nmap_rows_spec (lines : list string) :
  forall (cur : option string) (acc l : list Device) (o : option exn),
    Forall scanned acc ->
    nmap_rows lines cur acc = (l, o) ->
    Forall scanned l /\
    (o = None \/ o = Some IndexError \/ o = Some (UnboundLocalError "ip")).
Proof.
  induction lines as [|line rest IH]; intros cur acc l o Hacc; simpl.
  - intros [= <- <-]. auto.
  - destruct (PyStr.contains "Nmap scan report for" line).
    { unfold last_item. destruct (last (PyStr.split_ws line)).
      - apply IH. exact Hacc.
      - intros [= <- <-]. auto. }
    destruct (PyStr.contains "MAC Address:" line); [|apply IH; exact Hacc].
    unfold item.
    destruct (PyStr.split "MAC Address: " line !! 1%nat) as [tail|];
      [|intros [= <- <-]; auto].
    destruct (PyStr.split_ws tail !! 0%nat) as [m|];
      [|intros [= <- <-]; auto].
    destruct cur as [a|]; [|intros [= <- <-]; auto].
    apply IH. apply Forall_app. split; [exact Hacc|].
    constructor; [apply new_device_scanned | constructor].
Qed.

(** What a scan does, whatever the platform and the tools do: it returns
    a list of scanned devices and leaves the tracker alone; either the
    platform is supported, the tool answered and nothing is printed, or one
    message is printed and the list is empty. *)
Lemma detect_network_devices_spec (w : World) :
  exists (devices : list Device) (w' : World),
    detect_network_devices env w = (Ok devices, w') /\
    Forall scanned devices /\
    same_tracker w w' /\
    ((supported (system_name env) = true /\
      (exists output : string,
          scan_tool env (scan_argv (system_name env)) (scans w) = Ok output) /\
      console w' = console w) \/
     (devices = [] /\ exists msg : string, console w' = (console w ++ [msg])%list)).
Proof.
  unfold detect_network_devices, bind, platform_system, ret, try_except.
  cbn beta iota. unfold supported, scan_argv.
  destruct (String.eqb (PyStr.lower (system_name env)) "windows") eqn:Hwin.
  { unfold check_output, bind; cbn.
    destruct (scan_tool env ["arp"; "-a"] (scans w)) as [output|e] eqn:Hscan;
      cbn; [|scan_failed].
    eexists _, _. split; [reflexivity|].
    split; [apply arp_rows_scanned; constructor|].
    split; [repeat split|]. left.
    split; [reflexivity|]. split; [exists output; reflexivity | reflexivity]. }
  destruct (String.eqb (PyStr.lower (system_name env)) "linux"
            || String.eqb (PyStr.lower (system_name env)) "darwin") eqn:Hnix;
    [|cbn; scan_failed].
  unfold nmap_scan, check_output, bind; cbn.
  destruct (scan_tool env ["nmap"; "-sn"; "192.168.1.0/24"] (scans w))
    as [output|e] eqn:Hscan; cbn.
  - destruct (nmap_rows (PyStr.split PyStr.nl output) None []) as [l o] eqn:E.
    apply nmap_rows_spec in E as [Hl Ho]; [|constructor].
    destruct Ho as [-> | [-> | ->]]; cbn; [|scan_failed|scan_failed].
    eexists _, _. split; [reflexivity|]. split; [exact Hl|].
    split; [repeat split|]. left.
    split; [reflexivity|]. split; [exists output; reflexivity | reflexivity].
  - destruct (is_FileNotFoundError e); cbn; scan_failed.
Qed.

(** C6. The discovery operation never raises to its caller: on every
    platform and whatever the scan tool does, [detect_network_devices]
    returns a list.  Either the platform is supported, the scan tool
    answered and nothing is printed; or one message is printed and the
    list is empty.  The second is the case whenever the platform is not
    supported or the scan tool raised (it is missing, it failed). *)
Theorem detect_network_devices_never_raises (w : World) :
  exists (devices : list Device) (w' : World),
    detect_network_devices env w = (Ok devices, w') /\
    ((supported (system_name env) = true /\
      (exists output : string,
          scan_tool env (scan_argv (system_name env)) (scans w) = Ok output) /\
      console w' = console w) \/
     (devices = [] /\ exists msg : string, console w' = (console w ++ [msg])%list)) /\
    (supported (system_name env) = false \/
     (exists e : exn,
         scan_tool env (scan_argv (system_name env)) (scans w) = Raise e) ->
     devices = [] /\ exists msg : string, console w' = (console w ++ [msg])%list).
Proof.
  destruct (detect_network_devices_spec w) as (devices & w' & E & _ & _ & H).
  exists devices, w'. split; [exact E|]. split; [exact H|].
  intros Hfail. destruct H as [(Hsup & [output Hout] & _) | H]; [|exact H].
  destruct Hfail as [Hno | [e He]]; congruence.
Qed.

End Discovery.

Section Registry.

Context {RT : PyRuntime} (env : Env).

Lemma answers_not_empty (x : string) (d : Device) : answers x d -> d <> ∅.
Proof.
  intros [H|H] ->; rewrite lookup_empty in H; discriminate.
Qed.

(** On scanned devices the search raises nothing and returns the first
    device that answers to [x]. *)
Lemma next_match_scanned (x : string) (l : list Device) :
  Forall scanned l ->
  (next_match x l = Ok None /\ forall d, d ∈ l -> ~ answers x d) \/
  (exists (before : list Device) (d : Device) (after : list Device),
      l = (before ++ d :: after)%list /\ answers x d /\
      (forall d', d' ∈ before -> ~ answers x d') /\
      next_match x l = Ok (Some d)).
Proof.
  induction 1 as [|d l [[a Ha] [m Hm]] Hl IH]; simpl.
  - left. split; [reflexivity|]. intros d Hd. inversion Hd.
  - rewrite Ha. destruct (String.eqb_spec a x) as [->|Hax].
    { right. exists [], d, l. repeat split; try reflexivity.
      - left. exact Ha.
      - intros d' Hd'. inversion Hd'. }
    rewrite Hm. destruct (String.eqb_spec m x) as [->|Hmx].
    { right. exists [], d, l. repeat split; try reflexivity.
      - right. exact Hm.
      - intros d' Hd'. inversion Hd'. }
    assert (Hd : ~ answers x d).
    { intros [H|H]; congruence. }
    destruct IH as [[E Hno] | (before & d0 & after & -> & Hans & Hno & E)].
    + left. split; [exact E|].
      intros d' Hd'. apply elem_of_cons in Hd' as [->|Hd']; auto.
    + right. exists (d :: before), d0, after. repeat split; try assumption.
      intros d' Hd'. apply elem_of_cons in Hd' as [->|Hd']; auto.
Qed.

(** A request for a key that is tracked already is refused before any
    scan, and only the console changes. *)
Lemma add_device_to_track_tracked_key (x : string) (w : World) :
  Some x ∈ tracked_keys w ->
  exists msg : string,
    add_device_to_track env x w = (Ok false, set_console (console w ++ [msg]) w).
Proof.
  intros Hin. unfold add_device_to_track.
  destruct (String.eqb x ""); [eexists; reflexivity|].
  unfold tracked_keys in Hin. rewrite bool_decide_eq_true_2 by exact Hin.
  eexists. reflexivity.
Qed.

(** C4. [add_device_to_track x] raises nothing, and it returns [False]
    exactly when [x] is empty, or [x] is the identity key of a tracked
    device, or no device of a fresh scan has [x] as its ip or its mac;
    then the tracker is as before.  Otherwise it returns [True] and has
    appended the first device of the scan that answers to [x].  When the
    scan returns the empty list it returns [False]. *)
Theorem add_device_to_track_decides (x : string) (w : World) :
  exists (devices : list Device) (w1 : World),
    detect_network_devices env w = (Ok devices, w1) /\
    exists (b : bool) (w' : World),
    add_device_to_track env x w = (Ok b, w') /\
    (b = false <->
       x = "" \/ Some x ∈ tracked_keys w \/
       (forall d, d ∈ devices -> ~ answers x d)) /\
    (b = false -> same_tracker w w') /\
    (b = true ->
       exists (before : list Device) (d : Device) (after : list Device),
         devices = (before ++ d :: after)%list /\ answers x d /\
         (forall d', d' ∈ before -> ~ answers x d') /\
         tracked_devices w' = (tracked_devices w ++ [d])%list) /\
    (devices = [] -> b = false).
Proof.
  destruct (detect_network_devices_spec env w)
    as (devices & w1 & Escan & Hscanned & Hsame & _).
  exists devices, w1. split; [exact Escan|].
  unfold add_device_to_track.
  destruct (String.eqb_spec x "") as [->|Hx].
  { exists false. eexists. split; [reflexivity|].
    repeat split; auto; discriminate. }
  case_bool_decide as Hkey.
  { exists false. eexists. split; [reflexivity|].
    repeat split; auto; discriminate. }
  unfold bind at 1. rewrite Escan. unfold bind at 1, lift.
  destruct (next_match_scanned x devices Hscanned)
    as [[E Hno] | (before & d & after & Hdev & Hans & Hno & E)]; rewrite E.
  - exists false. eexists. split; [reflexivity|].
    split; [split; auto|]. split; [intros _; exact Hsame|].
    split; [discriminate|reflexivity].
  - unfold truthy.
    rewrite bool_decide_eq_false_2 by (apply answers_not_empty with x; exact Hans).
    exists true. eexists. split; [reflexivity|].
    split; [|split; [discriminate|split]].
    + split; [discriminate|]. intros [H | [H | H]]; [congruence | contradiction |].
      exfalso. apply (H d); [|exact Hans].
      rewrite Hdev. apply elem_of_app. right. left.
    + intros _. exists before, d, after. repeat split; try assumption.
      cbn. destruct Hsame as (-> & _). reflexivity.
    + intros ->. destruct before; discriminate.
Qed.

(** Once a device is tracked under the key [x], every later request for
    [x] is refused and leaves the registry as it is, whatever a scan
    would find. *)
Lemma add_device_to_track_same_key_twice (x : string) (w : World) :
  Some x ∈ tracked_keys w ->
  exists w' : World,
    add_device_to_track env x w = (Ok false, w') /\
    tracked_devices w' = tracked_devices w.
Proof.
  intros H. destruct (add_device_to_track_tracked_key x w H) as [msg E].
  eexists. split; [exact E|]. reflexivity.
Qed.

End Registry.

Section Poller.

Context {RT : PyRuntime} (env : Env).

Ltac run_tick :=
  unfold tick, try_except, poll, report, bind, platform_system, getitem,
    ret, raise, subprocess_run, time_time, append_to_log_file, print,
    time_sleep, is_Exception.

(** A device without the key [ip]: the [try] block raises [KeyError]
    before any ping, and so does the handler. *)
Lemma tick_no_ip (device : Device) (interval : Z) (w : World) :
  device !! "ip" = None ->
  tick env device interval w = (Raise (KeyError "ip"), w).
Proof. intros Hip. run_tick. rewrite Hip. reflexivity. Qed.

(** The ping raises: the handler reports it and the tick sleeps. *)
Lemma tick_ping_raises (device : Device) (interval : Z) (a : string)
    (e : exn) (w : World) :
  device !! "ip" = Some a ->
  ping_tool env (ping_argv (system_name env) a) (pings w) = Raise e ->
  0 <= interval ->
  tick env device interval w =
    (Ok tt,
     mkWorld (tracked_devices w) (device_logs w) (log_content w)
             (console w ++ [error_line a e])
             (now w + ping_lag env (pings w) + interval + oversleep env (sleeps w))
             (scans w) (S (pings w)) (writes w) (S (sleeps w))).
Proof.
  intros Hip Hping Hint. run_tick. rewrite Hip. cbn. rewrite Hping. cbn.
  rewrite (proj2 (Z.ltb_ge _ _) Hint). reflexivity.
Qed.

(** The ping returns and the write to the file fails. *)
Lemma tick_write_fails (device : Device) (interval : Z) (a : string)
    (rc : Z) (e : exn) (w : World) :
  device !! "ip" = Some a ->
  ping_tool env (ping_argv (system_name env) a) (pings w) = Ok rc ->
  file_fault env (writes w) = Some e ->
  0 <= interval ->
  tick env device interval w =
    (Ok tt,
     mkWorld (tracked_devices w)
             (device_logs w ++ [observed device a rc (now w + ping_lag env (pings w))])
             (log_content w)
             (console w ++ [error_line a e])
             (now w + ping_lag env (pings w) + interval + oversleep env (sleeps w))
             (scans w) (S (pings w)) (S (writes w)) (S (sleeps w))).
Proof.
  intros Hip Hping Hfault Hint. run_tick. rewrite Hip. cbn. rewrite Hping.
  cbn. rewrite Hfault. cbn.
  rewrite (proj2 (Z.ltb_ge _ _) Hint). reflexivity.
Qed.

(** The ping returns and the line is written. *)
Lemma tick_logged (device : Device) (interval : Z) (a : string)
    (rc : Z) (w : World) :
  device !! "ip" = Some a ->
  ping_tool env (ping_argv (system_name env) a) (pings w) = Ok rc ->
  file_fault env (writes w) = None ->
  0 <= interval ->
  let o := observed device a rc (now w + ping_lag env (pings w)) in
  tick env device interval w =
    (Ok tt,
     mkWorld (tracked_devices w)
             (device_logs w ++ [o])
             (log_content w ++ log_line o)
             (console w ++ ["Device " ++ a ++ " status: "
                            ++ (if online o then "Online" else "Offline")])
             (now w + ping_lag env (pings w) + interval + oversleep env (sleeps w))
             (scans w) (S (pings w)) (S (writes w)) (S (sleeps w))).
Proof.
  intros Hip Hping Hfault Hint. run_tick. rewrite Hip. cbn. rewrite Hping.
  cbn. rewrite Hfault. cbn.
  rewrite (proj2 (Z.ltb_ge _ _) Hint). reflexivity.
Qed.

(** The three ways a tick of a device with an ip goes, seen from the
    outside: it returns, the clock has advanced by the time of the ping
    and of the sleep, and at most one observation was appended. *)
Lemma tick_returns (device : Device) (interval : Z) (a : string) (w : World) :
  device !! "ip" = Some a ->
  0 <= interval ->
  exists w' : World,
    tick env device interval w = (Ok tt, w') /\
    now w' = now w + ping_lag env (pings w) + interval + oversleep env (sleeps w) /\
    pings w' = S (pings w) /\
    sleeps w' = S (sleeps w) /\
    ((exists e : exn,
        ping_tool env (ping_argv (system_name env) a) (pings w) = Raise e /\
        device_logs w' = device_logs w) \/
     exists rc : Z,
       ping_tool env (ping_argv (system_name env) a) (pings w) = Ok rc /\
       device_logs w' =
         (device_logs w ++ [observed device a rc (now w + ping_lag env (pings w))])%list).
Proof.
  intros Hip Hint.
  destruct (ping_tool env (ping_argv (system_name env) a) (pings w))
    as [rc|e] eqn:Hping.
  - destruct (file_fault env (writes w)) as [e|] eqn:Hfault.
    + eexists. split; [apply (tick_write_fails _ _ _ _ _ _ Hip Hping Hfault Hint)|].
      cbn. repeat split. right. exists rc. split; reflexivity.
    + eexists. split; [apply (tick_logged _ _ _ _ _ Hip Hping Hfault Hint)|].
      cbn. repeat split. right. exists rc. split; reflexivity.
  - eexists. split; [apply (tick_ping_raises _ _ _ _ _ Hip Hping Hint)|].
    cbn. repeat split. left. exists e. split; reflexivity.
Qed.

(** *** The loop *)

Lemma while_continue (fuel : nat) (device : Device)
    (interval duration start_time : Z) (w w' : World) :
  now w - start_time < duration ->
  tick env device interval w = (Ok tt, w') ->
  while (S fuel) (within start_time duration) (tick env device interval) w =
  while fuel (within start_time duration) (tick env device interval) w'.
Proof.
  intros Hlt Htick. cbn [while]. unfold within at 1, bind, time_time, ret.
  rewrite (proj2 (Z.ltb_lt _ _) Hlt). rewrite Htick. reflexivity.
Qed.

Lemma while_exit (fuel : nat) (device : Device)
    (interval duration start_time : Z) (w : World) :
  duration <= now w - start_time ->
  while (S fuel) (within start_time duration) (tick env device interval) w =
  Some (Ok tt, w).
Proof.
  intros Hge. cbn [while]. unfold within at 1, bind, time_time, ret.
  rewrite (proj2 (Z.ltb_ge _ _) Hge). reflexivity.
Qed.

Lemma while_abort (fuel : nat) (device : Device)
    (interval duration start_time : Z) (e : exn) (w w' : World) :
  now w - start_time < duration ->
  tick env device interval w = (Raise e, w') ->
  while (S fuel) (within start_time duration) (tick env device interval) w =
  Some (Raise e, w').
Proof.
  intros Hlt Htick. cbn [while]. unfold within at 1, bind, time_time, ret.
  rewrite (proj2 (Z.ltb_lt _ _) Hlt). rewrite Htick. reflexivity.
Qed.

(** A loop that ended with some fuel ends the same way with more. *)
Lemma while_more_fuel (cond : M bool) (body : M unit) (fuel : nat) :
  forall (w : World) (out : result unit * World) (fuel' : nat),
    while fuel cond body w = Some out ->
    (fuel <= fuel')%nat ->
    while fuel' cond body w = Some out.
Proof.
  induction fuel as [|fuel IH]; intros w out fuel' H Hle; [discriminate|].
  destruct fuel' as [|fuel']; [lia|].
  cbn [while] in *.
  destruct (cond w) as [[[|]|e] w1]; try exact H.
  destruct (body w1) as [[[]|e] w2]; try exact H.
  apply IH; [exact H | lia].
Qed.

Lemma track_device_unfold (fuel : nat) (device : Device)
    (interval duration : Z) (w : World) :
  track_device env fuel device interval duration w =
  while fuel (within (now w) duration) (tick env device interval)
    (set_console
       (console w ++ ["Starting tracking for device: " ++ dict_str device]) w).
Proof. reflexivity. Qed.

(** What one tick does to the log in memory and to the log file,
    whatever the device and the interval. *)
Lemma tick_log_effect (device : Device) (interval : Z) (w : World)
    (r : result unit) (w' : World) :
  tick env device interval w = (r, w') ->
  ((device !! "ip" = None \/
    exists (a : string) (e : exn),
      device !! "ip" = Some a /\
      ping_tool env (ping_argv (system_name env) a) (pings w) = Raise e) /\
   device_logs w' = device_logs w /\ log_content w' = log_content w) \/
  (exists (a : string) (rc : Z),
      device !! "ip" = Some a /\
      ping_tool env (ping_argv (system_name env) a) (pings w) = Ok rc /\
      let o := observed device a rc (now w + ping_lag env (pings w)) in
      device_logs w' = (device_logs w ++ [o])%list /\
      ((file_fault env (writes w) = None /\
        log_content w' = log_content w ++ log_line o) \/
       (exists e : exn, file_fault env (writes w) = Some e /\
        log_content w' = log_content w))).
Proof.
  run_tick. destruct (device !! "ip") as [a|] eqn:Hip; cbn.
  2:{ intros [= <- <-]. left. split; [left; reflexivity|].
      split; reflexivity. }
  destruct (ping_tool env (ping_argv (system_name env) a) (pings w))
    as [rc|e] eqn:Hping; cbn.
  2:{ destruct (interval <? 0); intros [= <- <-]; left;
        (split; [right; exists a, e; split; [reflexivity | exact Hping]|]);
        split; reflexivity. }
  destruct (file_fault env (writes w)) as [e|] eqn:Hfault; cbn;
    destruct (interval <? 0); intros [= <- <-]; right; exists a, rc;
    (split; [reflexivity|]); (split; [exact Hping|]); cbn;
    (split; [reflexivity|]).
  all: first [ left; split; reflexivity
             | right; exists e; split; reflexivity ].
Qed.

Lemma while_only_exit (device : Device) (interval duration start_time : Z)
    (a : string) :
  device !! "ip" = Some a ->
  0 <= interval ->
  forall (fuel : nat) (w : World) (r : result unit) (w' : World),
    while fuel (within start_time duration) (tick env device interval) w
      = Some (r, w') ->
    r = Ok tt /\ duration <= now w' - start_time.
Proof.
  intros Hip Hint. induction fuel as [|fuel IH]; intros w r w' H;
    [discriminate|].
  destruct (Z_lt_le_dec (now w - start_time) duration) as [Hlt|Hge].
  - destruct (tick_returns device interval a w Hip Hint) as (w1 & Ht & _).
    rewrite (while_continue _ _ _ _ _ _ _ Hlt Ht) in H. exact (IH _ _ _ H).
  - rewrite (while_exit _ _ _ _ _ _ Hge) in H. injection H as <- <-.
    split; [reflexivity | exact Hge].
Qed.

Lemma while_terminates (device : Device) (interval duration start_time : Z)
    (a : string) :
  device !! "ip" = Some a ->
  env_sane env ->
  0 < interval ->
  forall (n : nat) (w : World),
    duration - (now w - start_time) <= Z.of_nat n ->
    exists w' : World,
      while (S n) (within start_time duration) (tick env device interval) w
        = Some (Ok tt, w') /\
      duration <= now w' - start_time.
Proof.
  intros Hip Hsane Hint. induction n as [|n IH]; intros w Hn.
  - exists w. split; [apply while_exit; lia | lia].
  - destruct (Z_lt_le_dec (now w - start_time) duration) as [Hlt|Hge].
    + destruct (tick_returns device interval a w Hip ltac:(lia))
        as (w1 & Ht & Hnow & _).
      destruct (Hsane (pings w)) as [Hlag _].
      destruct (Hsane (sleeps w)) as [_ Hover].
      destruct (IH w1 ltac:(lia)) as (w' & Hw & Hd).
      exists w'. split; [|exact Hd].
      rewrite (while_continue _ _ _ _ _ _ _ Hlt Ht). exact Hw.
    + exists w. split; [apply while_exit; exact Hge | exact Hge].
Qed.




Lemma while_logs_built (device : Device) (interval duration start_time : Z) :
  forall (fuel : nat) (w : World) (r : result unit) (w' : World),
    while fuel (within start_time duration) (tick env device interval) w
      = Some (r, w') ->
    exists new : list Observation,
      device_logs w' = (device_logs w ++ new)%list /\
      Forall (built_by env device) new.
Proof.
  induction fuel as [|fuel IH]; intros w r w' H; [discriminate|].
  cbn [while] in H. unfold within at 1, bind, time_time, ret in H.
  destruct (now w - start_time <? duration).
  2:{ injection H as <- <-. exists []. split; [|constructor].
      rewrite app_nil_r. reflexivity. }
  destruct (tick env device interval w) as [r1 w1] eqn:Ht.
  assert (Hstep : exists new : list Observation,
             device_logs w1 = (device_logs w ++ new)%list /\
             Forall (built_by env device) new).
  { apply tick_log_effect in Ht
      as [(_ & Hl & _) | (a & rc & Hip & Hping & Hl & _)].
    - exists []. split; [|constructor]. rewrite app_nil_r. exact Hl.
    - eexists. split; [exact Hl|]. constructor; [|constructor].
      exists a, rc, (pings w), (now w + ping_lag env (pings w)).
      repeat split; assumption. }
  destruct Hstep as (new1 & Hl1 & Hb1).
  destruct r1 as [[]|e].
  - apply IH in H as (new2 & Hl2 & Hb2).
    exists (new1 ++ new2)%list. split.
    + rewrite Hl2, Hl1, app_assoc. reflexivity.
    + apply Forall_app. split; assumption.
  - injection H as <- <-. exists new1. split; assumption.
Qed.

(** C8. The observation a tick builds, when the ping of the tick
    returns: its timestamp is the clock read after the ping, its ip is
    the ip of the device, its mac is the mac of the device, or
    [Unknown] when the device has none, and it is online exactly when
    the return code of the ping is 0; the tick appends it to the log in
    memory and leaves the earlier observations as they are.  A call of
    [track_device] leaves the observations it finds as they are and
    appends only observations built this way. *)
Theorem observation_of_tick (device : Device) (interval : Z) (w : World) :
  (forall (a : string) (rc : Z) (r : result unit) (w' : World),
      device !! "ip" = Some a ->
      ping_tool env (ping_argv (system_name env) a) (pings w) = Ok rc ->
      tick env device interval w = (r, w') ->
      device_logs w' =
        (device_logs w ++
           [{| timestamp := now w + ping_lag env (pings w);
               ip := a;
               mac := default "Unknown" (device !! "mac");
               online := (rc =? 0) |}])%list) /\
  (forall (fuel : nat) (duration : Z) (r : result unit) (w' : World),
      track_device env fuel device interval duration w = Some (r, w') ->
      exists new : list Observation,
        device_logs w' = (device_logs w ++ new)%list /\
        Forall (built_by env device) new).
Proof.
  split.
  - intros a rc r w' Hip Hping Ht.
    apply tick_log_effect in Ht
      as [([Hno | (a' & e & Hip' & Hping')] & _)
         | (a' & rc' & Hip' & Hping' & Hl & _)].
    + congruence.
    + rewrite Hip in Hip'. injection Hip' as <-. congruence.
    + rewrite Hip in Hip'. injection Hip' as <-.
      rewrite Hping in Hping'. injection Hping' as <-. exact Hl.
  - intros fuel duration r w' H. rewrite track_device_unfold in H.
    apply while_logs_built in H. exact H.
Qed.



Lemma append_assoc (s1 s2 s3 : string) : (s1 ++ s2) ++ s3 = s1 ++ (s2 ++ s3).
Proof.
  induction s1 as [|c s1 IH]; [reflexivity|].
  change (String c ((s1 ++ s2) ++ s3) = String c (s1 ++ (s2 ++ s3))).
  rewrite IH. reflexivity.
Qed.

Lemma append_empty_r (s : string) : s ++ "" = s.
Proof.
  induction s as [|c s IH]; [reflexivity|].
  change (String c (s ++ "") = String c s). rewrite IH. reflexivity.
Qed.



End Poller.

Section Summary.

Context {RT : PyRuntime}.

Lemma for_each_print_blocks (l : list Observation) :
  forall w : World,
    for_each l (fun log =>
      print ("Time: " ++ ctime (timestamp log));;
      print ("IP: " ++ ip log);;
      print ("MAC: " ++ mac log);;
      print ("Status: " ++ (if online log then "Online" else "Offline"));;
      print "---") w
    = (Ok tt, set_console (console w ++ List.concat (map record_block l)) w).
Proof.
  induction l as [|o l IH]; intros w; cbn [for_each map List.concat].
  - unfold ret. rewrite app_nil_r. destruct w; reflexivity.
  - unfold bind at 1. unfold bind at 1, print at 1. unfold bind at 1, print at 1.
    unfold bind at 1, print at 1. unfold bind at 1, print at 1.
    unfold print at 1. rewrite IH. cbn.
    rewrite <- !app_assoc. reflexivity.
Qed.


End Summary.

(** * The properties on the sample environments *)

Section Scenarios.

#[local] Existing Instance Sample.runtime.

(** The scenario of the specification: the scan finds one device; it is
    added by its ip; a second request for that ip and a request for an
    ip that is not on the network are refused. *)
Example add_scenario :
  exists w1 w2 w3 : World,
    add_device_to_track Sample.linux "192.168.1.50" (init "" 0) = (Ok true, w1) /\
    add_device_to_track Sample.linux "192.168.1.50" w1 = (Ok false, w2) /\
    add_device_to_track Sample.linux "10.0.0.9" w2 = (Ok false, w3) /\
    tracked_devices w3 = [Sample.device].
Proof.
  eexists _, _, _.
  split; [vm_compute; reflexivity|].
  split; [vm_compute; reflexivity|].
  split; [vm_compute; reflexivity|].
  vm_compute. reflexivity.
Qed.

(** C1. The scan finds the device with ip 192.168.1.50 and mac
    AA:BB:CC:DD:EE:FF.  Adding it by its mac succeeds, and adding it by
    the same mac again succeeds again: the registry then holds the
    device twice, under the same identity key. *)
Theorem add_same_mac_twice :
  exists w1 w2 : World,
    add_device_to_track Sample.linux "AA:BB:CC:DD:EE:FF" (init "" 0)
      = (Ok true, w1) /\
    tracked_devices w1 = [Sample.device] /\
    add_device_to_track Sample.linux "AA:BB:CC:DD:EE:FF" w1
      = (Ok true, w2) /\
    tracked_devices w2 = [Sample.device; Sample.device] /\
    tracked_keys w2 = [Some "192.168.1.50"; Some "192.168.1.50"].
Proof.
  eexists _, _.
  split; [vm_compute; reflexivity|].
  split; [vm_compute; reflexivity|].
  split; [vm_compute; reflexivity|].
  split; vm_compute; reflexivity.
Qed.







(** The ways a scan fails: the tool is missing, the platform is not
    known, the output does not parse.  Each returns the empty list and
    prints one message. *)
Example detect_without_nmap :
  fst (detect_network_devices Sample.bare (init "" 0)) = Ok [] /\
  console (snd (detect_network_devices Sample.bare (init "" 0))) =
    ["Nmap not installed. Please install nmap for network scanning."].
Proof. split; vm_compute; reflexivity. Qed.

Example detect_on_other_platform :
  fst (detect_network_devices Sample.other_platform (init "" 0)) = Ok [] /\
  console (snd (detect_network_devices Sample.other_platform (init "" 0))) =
    ["Unsupported OS: java"].
Proof. split; vm_compute; reflexivity. Qed.

Example detect_garbled_output :
  fst (detect_network_devices Sample.garbled (init "" 0)) = Ok [] /\
  console (snd (detect_network_devices Sample.garbled (init "" 0))) =
    ["Error detecting network devices: error"].
Proof. split; vm_compute; reflexivity. Qed.

Example detect_on_linux :
  fst (detect_network_devices Sample.linux (init "" 0)) = Ok [Sample.device] /\
  console (snd (detect_network_devices Sample.linux (init "" 0))) = [].
Proof. split; vm_compute; reflexivity. Qed.

Lemma detect_network_devices_never_raises_witness :
  exists (devices : list Device) (w' : World),
    detect_network_devices Sample.bare (init "" 0) = (Ok devices, w') /\
    devices = [] /\
    exists msg : string, console w' = [msg].
Proof.
  destruct (detect_network_devices_never_raises Sample.bare (init "" 0))
    as (devices & w' & E & _ & H).
  exists devices, w'. split; [exact E|]. apply H.
  right. exists (FileNotFoundError "nmap"). reflexivity.
Defined.

Lemma observation_of_tick_witness :
  device_logs (snd (tick Sample.windows Sample.device 60 (init "" 1000))) =
    [{| timestamp := 1000;
        ip := "192.168.1.50";
        mac := "AA:BB:CC:DD:EE:FF";
        online := true |}].
Proof.
  apply (proj1 (observation_of_tick Sample.windows Sample.device 60 (init "" 1000))
           "192.168.1.50" 0
           (fst (tick Sample.windows Sample.device 60 (init "" 1000)))).
  - reflexivity.
  - reflexivity.
  - apply surjective_pairing.
Defined.

(** The summary of two observations: the heading and two blocks, in the
    order of the log. *)
Example summary_of_two :
  console
    (snd (display_tracking_summary
            (set_device_logs
               [mkObservation 10 "192.168.1.50" "AA:BB:CC:DD:EE:FF" true;
                mkObservation 70 "192.168.1.50" "AA:BB:CC:DD:EE:FF" false]
               (init "" 0)))) =
    [summary_heading;
     "Time: t"; "IP: 192.168.1.50"; "MAC: AA:BB:CC:DD:EE:FF"; "Status: Online"; "---";
     "Time: t"; "IP: 192.168.1.50"; "MAC: AA:BB:CC:DD:EE:FF"; "Status: Offline"; "---"].
Proof. vm_compute. reflexivity. Qed.

Example summary_of_none :
  console (snd (display_tracking_summary (init "" 0))) =
    ["No device tracking data available."].
Proof. vm_compute. reflexivity. Qed.

End Scenarios.

(** * Further properties of the discovery *)

Section DiscoveryDetails.

Context {RT : PyRuntime} (env : Env).

Lemma split_ws_from_nonempty (s : string) :
  forall cur : string, Forall (fun t => t <> "") (PyStr.split_ws_from cur s).
Proof.
  induction s as [|c s IH]; intros cur; simpl.
  - destruct (String.eqb_spec cur ""); constructor; [assumption | constructor].
  - destruct (PyStr.is_space c); [|apply IH].
    destruct (String.eqb_spec cur ""); [apply IH|].
    constructor; [assumption | apply IH].
Qed.

Lemma split_ws_nonempty (s : string) :
  Forall (fun t => t <> "") (PyStr.split_ws s).
Proof. apply split_ws_from_nonempty. Qed.

Lemma new_device_wellformed (a m t : string) :
  a <> "" -> m <> "" -> wellformed (new_device a m t).
Proof.
  intros Ha Hm. exists a, m. repeat split; try assumption.
  exists t. reflexivity.
Qed.

Lemma wellformed_scanned (d : Device) : wellformed d -> scanned d.
Proof. intros (a & m & Ha & Hm & _). split; eexists; eassumption. Qed.

(** The identity key of a well-formed device is its ip. *)
Lemma wellformed_identity_key (d : Device) :
  wellformed d ->
  exists a : string, d !! "ip" = Some a /\ a <> "" /\ identity_key d = Some a.
Proof.
  intros (a & m & Ha & _ & _ & Hne & _). exists a.
  split; [exact Ha|]. split; [exact Hne|].
  unfold identity_key, py_or. rewrite Ha.
  destruct (String.eqb_spec a ""); [contradiction | reflexivity].
Qed.

Lemma arp_rows_wellformed (lines : list string) :
  forall acc : list Device,
    Forall wellformed acc -> Forall wellformed (arp_rows lines acc).
Proof.
  induction lines as [|line rest IH]; intros acc Hacc; simpl; [exact Hacc|].
  pose proof (split_ws_nonempty line) as Hne.
  destruct (PyStr.split_ws line) as [|p0 [|p1 [|p2 ps]]]; try (apply IH; exact Hacc).
  apply IH. apply Forall_app. split; [exact Hacc|].
  inversion Hne as [|? ? H0 Hne1]; subst.
  inversion Hne1 as [|? ? H1 _]; subst.
  constructor; [apply new_device_wellformed; assumption | constructor].
Qed.

Lemma nmap_rows_wellformed (lines : list string) :
  forall (cur : option string) (acc l : list Device) (o : option exn),
    (forall a, cur = Some a -> a <> "") ->
    Forall wellformed acc ->
    nmap_rows lines cur acc = (l, o) ->
    Forall wellformed l.
Proof.
  induction lines as [|line rest IH]; intros cur acc l o Hcur Hacc; simpl.
  - intros [= <- <-]. exact Hacc.
  - destruct (PyStr.contains "Nmap scan report for" line).
    { unfold last_item.
      destruct (last (PyStr.split_ws line)) as [a|] eqn:Hlast.
      - apply IH; [|exact Hacc]. intros a' [= <-].
        apply last_Some in Hlast as [l' Hl'].
        pose proof (split_ws_nonempty line) as Hne. rewrite Hl' in Hne.
        apply Forall_app in Hne as [_ Hne]. inversion Hne; assumption.
      - intros [= <- <-]. exact Hacc. }
    destruct (PyStr.contains "MAC Address:" line); [|apply IH; assumption].
    unfold item.
    destruct (PyStr.split "MAC Address: " line !! 1%nat) as [tail|];
      [|intros [= <- <-]; exact Hacc].
    pose proof (split_ws_nonempty tail) as Hne.
    destruct (PyStr.split_ws tail) as [|m ms]; simpl;
      [intros [= <- <-]; exact Hacc|].
    destruct cur as [a|]; [|intros [= <- <-]; exact Hacc].
    apply IH; [exact Hcur|]. apply Forall_app. split; [exact Hacc|].
    constructor; [|constructor].
    apply new_device_wellformed; [apply Hcur; reflexivity|].
    inversion Hne; assumption.
Qed.

(** The loop over the table of [arp -a], without its accumulator. *)
Lemma arp_rows_omap (lines : list string) :
  forall acc : list Device,
    arp_rows lines acc = (acc ++ omap arp_row lines)%list.
Proof.
  induction lines as [|line rest IH]; intros acc; simpl.
  - rewrite app_nil_r. reflexivity.
  - unfold arp_row at 1.
    destruct (PyStr.split_ws line) as [|p0 [|p1 [|p2 ps]]];
      rewrite IH; try reflexivity.
    rewrite <- app_assoc. reflexivity.
Qed.

(** *** The scan, platform by platform *)

Lemma detect_on_windows (w : World) :
  String.eqb (PyStr.lower (system_name env)) "windows" = true ->
  detect_network_devices env w =
    match scan_tool env ["arp"; "-a"] (scans w) with
    | Ok output =>
        (Ok (arp_rows (drop 3 (PyStr.split PyStr.nl output)) []), after_scan w)
    | Raise e =>
        (Ok [], set_console (console w ++ [scan_error_line e]) (after_scan w))
    end.
Proof.
  intros Hwin.
  unfold detect_network_devices, bind, platform_system, ret, try_except.
  cbn beta iota. rewrite Hwin. unfold check_output, bind; cbn.
  destruct (scan_tool env ["arp"; "-a"] (scans w)); reflexivity.
Qed.

Lemma detect_with_nmap (w : World) :
  String.eqb (PyStr.lower (system_name env)) "linux"
  || String.eqb (PyStr.lower (system_name env)) "darwin" = true ->
  detect_network_devices env w =
    match scan_tool env ["nmap"; "-sn"; "192.168.1.0/24"] (scans w) with
    | Ok output =>
        match nmap_rows (PyStr.split PyStr.nl output) None [] with
        | (discovered, None) => (Ok discovered, after_scan w)
        | (_, Some e) =>
            (Ok [], set_console (console w ++ [scan_error_line e]) (after_scan w))
        end
    | Raise e =>
        (Ok [],
         set_console
           (console w ++
              [if is_FileNotFoundError e
               then "Nmap not installed. Please install nmap for network scanning."
               else scan_error_line e])
           (after_scan w))
    end.
Proof.
  intros Hnix.
  assert (Hwin : String.eqb (PyStr.lower (system_name env)) "windows" = false).
  { destruct (String.eqb_spec (PyStr.lower (system_name env)) "windows")
      as [E|]; [|reflexivity].
    rewrite E in Hnix. discriminate Hnix. }
  unfold detect_network_devices, bind, platform_system, ret, try_except.
  cbn beta iota. rewrite Hwin, Hnix.
  unfold nmap_scan, check_output, bind; cbn.
  destruct (scan_tool env ["nmap"; "-sn"; "192.168.1.0/24"] (scans w))
    as [output|e]; cbn.
  - destruct (nmap_rows (PyStr.split PyStr.nl output) None []) as [l o] eqn:E.
    apply nmap_rows_spec in E as [_ Ho]; [|constructor].
    destruct Ho as [-> | [-> | ->]]; reflexivity.
  - destruct (is_FileNotFoundError e); reflexivity.
Qed.

Lemma detect_unsupported (w : World) :
  supported (system_name env) = false ->
  detect_network_devices env w =
    (Ok [],
     set_console
       (console w ++ ["Unsupported OS: " ++ PyStr.lower (system_name env)]) w).
Proof.
  unfold supported. intros Hsup.
  apply orb_false_elim in Hsup as [Hwin Hnix].
  unfold detect_network_devices, bind, platform_system, ret, try_except.
  cbn beta iota. rewrite Hwin, Hnix. reflexivity.
Qed.

Lemma supported_cases :
  String.eqb (PyStr.lower (system_name env)) "windows" = true \/
  (String.eqb (PyStr.lower (system_name env)) "windows" = false /\
   String.eqb (PyStr.lower (system_name env)) "linux"
   || String.eqb (PyStr.lower (system_name env)) "darwin" = true) \/
  supported (system_name env) = false.
Proof.
  unfold supported.
  destruct (String.eqb (PyStr.lower (system_name env)) "windows"); [left; reflexivity|].
  destruct (String.eqb (PyStr.lower (system_name env)) "linux"
            || String.eqb (PyStr.lower (system_name env)) "darwin").
  - right. left. split; reflexivity.
  - right. right. reflexivity.
Qed.

Lemma detect_wellformed (w : World) :
  exists (devices : list Device) (w' : World),
    detect_network_devices env w = (Ok devices, w') /\
    Forall wellformed devices /\
    Forall (fun d => identity_key d = d !! "ip") devices.
Proof.
  assert (Hkey : forall l : list Device,
             Forall wellformed l ->
             Forall (fun d => identity_key d = d !! "ip") l).
  { intros l Hl. eapply Forall_impl; [exact Hl|].
    intros d Hd. destruct (wellformed_identity_key d Hd) as (a & Ha & _ & Hk).
    rewrite Hk, Ha. reflexivity. }
  destruct supported_cases as [Hwin | [[_ Hnix] | Hno]].
  - rewrite (detect_on_windows w Hwin).
    destruct (scan_tool env ["arp"; "-a"] (scans w)) as [output|e].
    + eexists _, _. split; [reflexivity|].
      assert (H : Forall wellformed
                    (arp_rows (drop 3 (PyStr.split PyStr.nl output)) []))
        by (apply arp_rows_wellformed; constructor).
      split; [exact H | apply Hkey; exact H].
    + eexists _, _. split; [reflexivity|]. split; constructor.
  - rewrite (detect_with_nmap w Hnix).
    destruct (scan_tool env ["nmap"; "-sn"; "192.168.1.0/24"] (scans w))
      as [output|e].
    + destruct (nmap_rows (PyStr.split PyStr.nl output) None []) as [l [e|]] eqn:E.
      * eexists _, _. split; [reflexivity|]. split; constructor.
      * apply nmap_rows_wellformed in E; [|discriminate|constructor].
        eexists _, _. split; [reflexivity|].
        split; [exact E | apply Hkey; exact E].
    + eexists _, _. split; [reflexivity|]. split; constructor.
  - rewrite (detect_unsupported w Hno).
    eexists _, _. split; [reflexivity|]. split; constructor.
Qed.

(** X1. Every device a scan returns, on every platform and whatever the
    tool printed, has the keys ip, mac and type, with an ip and a mac that
    are not empty; its identity key is its ip. *)
Theorem discovered_devices_wellformed (w : World) :
  exists (devices : list Device) (w' : World),
    detect_network_devices env w = (Ok devices, w') /\
    Forall wellformed devices /\
    Forall (fun d => identity_key d = d !! "ip") devices.
Proof. exact (detect_wellformed w). Qed.

Lemma detect_frame (w : World) :
  let w' := snd (detect_network_devices env w) in
  same_tracker w w' /\
  pings w' = pings w /\ writes w' = writes w /\ sleeps w' = sleeps w /\
  (exists printed : list string, console w' = (console w ++ printed)%list) /\
  scans w' = if supported (system_name env) then S (scans w) else scans w.
Proof.
  destruct supported_cases as [Hwin | [[Hwin Hnix] | Hno]].
  - rewrite (detect_on_windows w Hwin). unfold supported. rewrite Hwin.
    destruct (scan_tool env ["arp"; "-a"] (scans w)) as [output|e]; cbn.
    + repeat split. exists []. rewrite app_nil_r. reflexivity.
    + repeat split. eexists. reflexivity.
  - rewrite (detect_with_nmap w Hnix). unfold supported. rewrite Hwin, Hnix.
    destruct (scan_tool env ["nmap"; "-sn"; "192.168.1.0/24"] (scans w))
      as [output|e]; cbn.
    + destruct (nmap_rows (PyStr.split PyStr.nl output) None []) as [l [e|]]; cbn.
      * repeat split. eexists. reflexivity.
      * repeat split. exists []. rewrite app_nil_r. reflexivity.
    + repeat split. eexists. reflexivity.
  - rewrite (detect_unsupported w Hno), Hno. cbn.
    repeat split. eexists. reflexivity.
Qed.

(** X2. A scan touches nothing but the console and the count of scans:
    the registry, the log in memory, the log file, the clock and the
    counts of pings, writes and sleeps are as before; what was on the
    console stays, at its place.  The scan tool is run exactly once on a
    supported platform and not at all on another one. *)
Theorem detect_network_devices_frame (w : World) :
  let w' := snd (detect_network_devices env w) in
  same_tracker w w' /\
  pings w' = pings w /\ writes w' = writes w /\ sleeps w' = sleeps w /\
  (exists printed : list string, console w' = (console w ++ printed)%list) /\
  scans w' = if supported (system_name env) then S (scans w) else scans w.
Proof. exact (detect_frame w). Qed.

(** X3. The parsing of the output of nmap is all or nothing: when the
    loop over the lines raises (a MAC line without an address, a MAC line
    before any report line), the devices found before that line are
    dropped; the scan returns the empty list and reports the exception. *)
Theorem nmap_parse_error_drops_devices (w : World) (output : string)
    (found : list Device) (e : exn) :
  String.eqb (PyStr.lower (system_name env)) "linux"
  || String.eqb (PyStr.lower (system_name env)) "darwin" = true ->
  scan_tool env ["nmap"; "-sn"; "192.168.1.0/24"] (scans w) = Ok output ->
  nmap_rows (PyStr.split PyStr.nl output) None [] = (found, Some e) ->
  detect_network_devices env w =
    (Ok [], set_console (console w ++ [scan_error_line e]) (after_scan w)).
Proof.
  intros Hnix Hscan Hrows.
  rewrite (detect_with_nmap w Hnix), Hscan, Hrows. reflexivity.
Qed.

Lemma omap_length_le {A B} (f : A -> option B) (l : list A) :
  (List.length (omap f l) <= List.length l)%nat.
Proof.
  induction l as [|x l IH]; [reflexivity|].
  change (omap f (x :: l))
    with (match f x with Some y => y :: omap f l | None => omap f l end).
  destruct (f x); simpl; lia.
Qed.

(** X4. On Windows, when [arp -a] answers, the scan prints nothing and
    returns, in the order of the output, one device for each line after
    the third that has at least three fields, built from the first three
    fields of the line; the first three lines and the shorter lines are
    skipped.  So an output of at most three lines gives no device, and
    [n] lines give at most [n - 3]. *)
Theorem arp_table_parsing (w : World) (output : string) :
  String.eqb (PyStr.lower (system_name env)) "windows" = true ->
  scan_tool env ["arp"; "-a"] (scans w) = Ok output ->
  let lines := PyStr.split PyStr.nl output in
  detect_network_devices env w = (Ok (omap arp_row (drop 3 lines)), after_scan w) /\
  (List.length (omap arp_row (drop 3 lines)) <= List.length lines - 3)%nat.
Proof.
  intros Hwin Hscan lines. split.
  - rewrite (detect_on_windows w Hwin), Hscan, arp_rows_omap. reflexivity.
  - etransitivity; [apply omap_length_le|]. rewrite length_drop. lia.
Qed.

(** X5. When the scan tool raises on a supported platform, the scan
    returns the empty list and prints one line: on Linux and macOS a
    [FileNotFoundError] gives the advice to install nmap, every other
    exception, and on Windows every exception, gives the error line with
    the text of the exception. *)
Theorem scan_tool_failure_reported (w : World) (e : exn) :
  supported (system_name env) = true ->
  scan_tool env (scan_argv (system_name env)) (scans w) = Raise e ->
  detect_network_devices env w =
    (Ok [],
     set_console
       (console w ++
          [if negb (String.eqb (PyStr.lower (system_name env)) "windows")
              && is_FileNotFoundError e
           then "Nmap not installed. Please install nmap for network scanning."
           else scan_error_line e])
       (after_scan w)).
Proof.
  intros Hsup. unfold scan_argv.
  destruct supported_cases as [Hwin | [[Hwin Hnix] | Hno]]; [| |congruence].
  - rewrite Hwin. intros Hscan.
    rewrite (detect_on_windows w Hwin), Hscan. reflexivity.
  - rewrite Hwin. intros Hscan.
    rewrite (detect_with_nmap w Hnix), Hscan. reflexivity.
Qed.

End DiscoveryDetails.

(** * Further properties of the registry *)

Section RegistryDetails.

Context {RT : PyRuntime} (env : Env).

(** The four ways a call of [add_device_to_track] goes. *)
Lemma add_device_to_track_cases (x : string) (w : World) :
  (x = "" /\
   add_device_to_track env x w =
     (Ok false, set_console (console w ++ ["Invalid device identifier"]) w)) \/
  (x <> "" /\ Some x ∈ tracked_keys w /\
   add_device_to_track env x w =
     (Ok false, set_console (console w ++ ["Device is already being tracked"]) w)) \/
  (x <> "" /\ (Some x ∉ tracked_keys w) /\
   exists (devices : list Device) (w1 : World),
     detect_network_devices env w = (Ok devices, w1) /\
     Forall wellformed devices /\
     (((forall d, d ∈ devices -> ~ answers x d) /\
       add_device_to_track env x w =
         (Ok false,
          set_console
            (console w1 ++ ["Could not find device " ++ x ++ " on network"]) w1)) \/
      (exists (before : list Device) (d : Device) (after : list Device),
          devices = (before ++ d :: after)%list /\ answers x d /\
          (forall d', d' ∈ before -> ~ answers x d') /\
          add_device_to_track env x w =
            (Ok true,
             set_console
               (console w1 ++ ["Added device to tracking: " ++ dict_str d])
               (set_tracked_devices (tracked_devices w1 ++ [d]) w1))))).
Proof.
  unfold add_device_to_track.
  destruct (String.eqb_spec x "") as [->|Hx]; [left; split; reflexivity|].
  right. case_bool_decide as Hkey.
  { left. split; [exact Hx|]. split; [exact Hkey | reflexivity]. }
  right. split; [exact Hx|]. split; [exact Hkey|].
  destruct (detect_wellformed env w) as (devices & w1 & Escan & Hwf & _).
  exists devices, w1. split; [exact Escan|]. split; [exact Hwf|].
  assert (Hscanned : Forall scanned devices).
  { eapply Forall_impl; [exact Hwf | exact wellformed_scanned]. }
  destruct (next_match_scanned x devices Hscanned)
    as [[E Hno] | (before & d & after & Hdev & Hans & Hno & E)].
  - left. split; [exact Hno|].
    unfold bind at 1. rewrite Escan. unfold bind at 1, lift. rewrite E.
    reflexivity.
  - right. exists before, d, after.
    split; [exact Hdev|]. split; [exact Hans|]. split; [exact Hno|].
    unfold bind at 1. rewrite Escan. unfold bind at 1, lift. rewrite E.
    unfold truthy.
    rewrite bool_decide_eq_false_2 by (apply answers_not_empty with x; exact Hans).
    reflexivity.
Qed.

(** X6. A request with an empty identifier, or with an identifier that is
    the identity key of a tracked device, is refused before any scan: the
    call returns [False], prints one line (the empty identifier is tested
    first) and changes nothing else; no scan tool is run. *)
Theorem refused_without_scan (x : string) (w : World) :
  x = "" \/ Some x ∈ tracked_keys w ->
  add_device_to_track env x w =
    (Ok false,
     set_console
       (console w ++
          [if String.eqb x "" then "Invalid device identifier"
           else "Device is already being tracked"]) w).
Proof.
  intros H.
  destruct (add_device_to_track_cases x w)
    as [[-> E] | [(Hx & _ & E) | (Hx & Hkey & _)]].
  - exact E.
  - rewrite E. destruct (String.eqb_spec x ""); [contradiction | reflexivity].
  - destruct H; contradiction.
Qed.

(** X7. A call of [add_device_to_track] touches the registry, the console
    and the count of scans only: the log in memory, the log file, the
    clock and the counts of pings, writes and sleeps are as before.  The
    registry keeps its devices in their order and gains at most one, at
    its end; the console gains at least one line. *)
Theorem add_device_to_track_frame (x : string) (w : World) :
  let w' := snd (add_device_to_track env x w) in
  device_logs w' = device_logs w /\ log_content w' = log_content w /\
  now w' = now w /\
  pings w' = pings w /\ writes w' = writes w /\ sleeps w' = sleeps w /\
  (exists added : list Device,
      tracked_devices w' = (tracked_devices w ++ added)%list /\
      (List.length added <= 1)%nat) /\
  (exists printed : list string,
      console w' = (console w ++ printed)%list /\
      (1 <= List.length printed)%nat).
Proof.
  destruct (add_device_to_track_cases x w)
    as [[_ E] | [(_ & _ & E) | (_ & _ & devices & w1 & Escan & _ & H)]].
  - rewrite E. cbn. do 6 (split; [reflexivity|]). split.
    + exists []. rewrite app_nil_r. split; [reflexivity | simpl; lia].
    + eexists. split; [reflexivity | simpl; lia].
  - rewrite E. cbn. do 6 (split; [reflexivity|]). split.
    + exists []. rewrite app_nil_r. split; [reflexivity | simpl; lia].
    + eexists. split; [reflexivity | simpl; lia].
  - pose proof (detect_frame env w) as Hf. rewrite Escan in Hf. cbn in Hf.
    destruct Hf as ((Ht & Hl & Hc & Hn) & Hp & Hwr & Hs & [printed Hpr] & _).
    destruct H as [[_ E] | (before & d & after & _ & _ & _ & E)];
      rewrite E; cbn; rewrite ?Ht, ?Hpr;
      (do 6 (split; [assumption|])); split.
    + exists []. rewrite app_nil_r. split; [reflexivity | simpl; lia].
    + eexists. rewrite <- app_assoc. split; [reflexivity|].
      rewrite length_app. simpl. lia.
    + exists [d]. split; [reflexivity | simpl; lia].
    + eexists. rewrite <- app_assoc. split; [reflexivity|].
      rewrite length_app. simpl. lia.
Qed.

(** X8. The registry holds well-formed devices only: if every tracked
    device has the keys ip, mac and type with an ip and a mac that are not
    empty, then so it is after a call of [add_device_to_track], whatever
    the identifier and the scan. *)
Theorem add_keeps_registry_wellformed (x : string) (w : World) :
  Forall wellformed (tracked_devices w) ->
  Forall wellformed (tracked_devices (snd (add_device_to_track env x w))).
Proof.
  intros Hw.
  destruct (add_device_to_track_cases x w)
    as [[_ E] | [(_ & _ & E) | (_ & _ & devices & w1 & Escan & Hwf & H)]].
  - rewrite E. exact Hw.
  - rewrite E. exact Hw.
  - pose proof (detect_frame env w) as Hf. rewrite Escan in Hf. cbn in Hf.
    destruct Hf as ((Ht & _) & _).
    destruct H as [[_ E] | (before & d & after & Hdev & _ & _ & E)];
      rewrite E; cbn; rewrite Ht; [exact Hw|].
    apply Forall_app. split; [exact Hw|]. constructor; [|constructor].
    rewrite Hdev in Hwf. apply Forall_app in Hwf as [_ Hwf].
    inversion Hwf; assumption.
Qed.

(** X9. Requests by ip keep the identity keys of the registry distinct:
    if the keys are distinct and no device of the scan has the identifier
    as its mac, they are distinct after the call. *)
Theorem add_by_ip_keeps_keys_unique (x : string) (w : World)
    (devices : list Device) (w1 : World) :
  NoDup (tracked_keys w) ->
  detect_network_devices env w = (Ok devices, w1) ->
  (forall d, d ∈ devices -> d !! "mac" <> Some x) ->
  NoDup (tracked_keys (snd (add_device_to_track env x w))).
Proof.
  intros Hnd Escan Hmac.
  destruct (add_device_to_track_cases x w)
    as [[_ E] | [(_ & _ & E) | (Hx & Hkey & devices' & w1' & Escan' & _ & H)]].
  - rewrite E. exact Hnd.
  - rewrite E. exact Hnd.
  - rewrite Escan in Escan'. injection Escan' as <- <-.
    pose proof (detect_frame env w) as Hf. rewrite Escan in Hf. cbn in Hf.
    destruct Hf as ((Ht & _) & _).
    destruct H as [[_ E] | (before & d & after & Hdev & Hans & _ & E)];
      rewrite E; unfold tracked_keys in *; cbn; rewrite Ht; [exact Hnd|].
    rewrite map_app. cbn.
    assert (Hip : d !! "ip" = Some x).
    { destruct Hans as [H|H]; [exact H|]. exfalso.
      apply (Hmac d); [|exact H].
      rewrite Hdev. apply elem_of_app. right. left. }
    assert (Hk : identity_key d = Some x).
    { unfold identity_key, py_or. rewrite Hip.
      destruct (String.eqb_spec x ""); [contradiction | reflexivity]. }
    rewrite Hk. apply NoDup_app. split; [exact Hnd|]. split.
    + intros k Hin Hin'. apply list_elem_of_singleton in Hin'. subst k.
      contradiction.
    + apply NoDup_singleton.
Qed.

End RegistryDetails.

(** * Further properties of the poller *)

Section PollerDetails.

Context {RT : PyRuntime} (env : Env).

(** X10. With a duration of 0 or less [track_device] prints its first
    line and returns at once, for every device and every interval: no ping
    is run, nothing is logged and there is no sleep. *)
Theorem track_device_no_duration (fuel : nat) (device : Device)
    (interval duration : Z) (w : World) :
  duration <= 0 ->
  (1 <= fuel)%nat ->
  track_device env fuel device interval duration w =
    Some (Ok tt, set_console (console w ++ [starting_line device]) w).
Proof.
  intros Hd Hfuel. destruct fuel as [|fuel]; [lia|].
  rewrite track_device_unfold. apply while_exit. cbn. lia.
Qed.

(** X11. A device dict without the key [ip]: when the duration is above 0,
    [track_device] raises [KeyError] out of the handler of its first tick,
    before any ping and any sleep; only its first line was printed. *)
Theorem track_device_without_ip (fuel : nat) (device : Device)
    (interval duration : Z) (w : World) :
  device !! "ip" = None ->
  0 < duration ->
  (1 <= fuel)%nat ->
  track_device env fuel device interval duration w =
    Some (Raise (KeyError "ip"),
          set_console (console w ++ [starting_line device]) w).
Proof.
  intros Hip Hd Hfuel. destruct fuel as [|fuel]; [lia|].
  rewrite track_device_unfold. apply while_abort.
  - cbn. lia.
  - apply tick_no_ip. exact Hip.
Qed.



Lemma while_bounded (device : Device) (interval duration start_time : Z) :
  env_sane env ->
  0 < interval ->
  forall (fuel k : nat) (w : World) (r : result unit) (w' : World),
    duration - (now w - start_time) <= Z.of_nat k * interval ->
    while fuel (within start_time duration) (tick env device interval) w
      = Some (r, w') ->
    (pings w' <= pings w + k)%nat /\
    (List.length (device_logs w') <= List.length (device_logs w) + k)%nat.
Proof.
  intros Hsane Hint. induction fuel as [|fuel IH]; intros k w r w' Hk H;
    [discriminate|].
  destruct (Z_lt_le_dec (now w - start_time) duration) as [Hlt|Hge].
  2:{ rewrite (while_exit _ _ _ _ _ _ _ Hge) in H. injection H as <- <-. lia. }
  destruct k as [|k]; [cbn in Hk; lia|].
  destruct (device !! "ip") as [a|] eqn:Hip.
  - destruct (tick_returns env device interval a w Hip ltac:(lia))
      as (w1 & Ht & Hnow & Hp & _ & Hl).
    rewrite (while_continue _ _ _ _ _ _ _ _ Hlt Ht) in H.
    destruct (Hsane (pings w)) as [Hlag _].
    destruct (Hsane (sleeps w)) as [_ Hover].
    apply (IH k) in H; [|lia].
    assert (Hlen : (List.length (device_logs w1)
                    <= S (List.length (device_logs w)))%nat).
    { destruct Hl as [(e & _ & ->) | (rc & _ & ->)]; [lia|].
      rewrite length_app. simpl. lia. }
    lia.
  - rewrite (while_abort _ _ _ _ _ _ _ _ _ Hlt (tick_no_ip env device interval w Hip))
      in H.
    injection H as <- <-. lia.
Qed.

(** X13. The number of ticks is bounded by the duration: with an interval
    above 0, a clock that never runs backwards and sleeps that last at
    least as long as asked, a call of [track_device] whose duration is at
    most [n] intervals runs at most [n] pings and appends at most [n]
    observations. *)
Theorem tick_count_bounded (fuel : nat) (device : Device)
    (interval duration : Z) (n : nat) (w : World) (r : result unit)
    (w' : World) :
  env_sane env ->
  0 < interval ->
  duration <= Z.of_nat n * interval ->
  track_device env fuel device interval duration w = Some (r, w') ->
  (pings w' <= pings w + n)%nat /\
  (List.length (device_logs w') <= List.length (device_logs w) + n)%nat.
Proof.
  intros Hsane Hint Hn H. rewrite track_device_unfold in H.
  apply (while_bounded device interval duration (now w) Hsane Hint fuel n) in H;
    [exact H | cbn; lia].
Qed.

Lemma while_sorted (device : Device) (interval duration start_time : Z) :
  env_sane env ->
  0 < interval ->
  forall (fuel : nat) (w : World) (r : result unit) (w' : World),
    while fuel (within start_time duration) (tick env device interval) w
      = Some (r, w') ->
    exists new : list Observation,
      device_logs w' = (device_logs w ++ new)%list /\
      Forall (fun o => now w <= timestamp o) new /\
      StronglySorted Z.lt (map timestamp new).
Proof.
  intros Hsane Hint. induction fuel as [|fuel IH]; intros w r w' H;
    [discriminate|].
  destruct (Z_lt_le_dec (now w - start_time) duration) as [Hlt|Hge].
  2:{ rewrite (while_exit _ _ _ _ _ _ _ Hge) in H. injection H as <- <-.
      exists []. rewrite app_nil_r. repeat constructor. }
  destruct (device !! "ip") as [a|] eqn:Hip.
  2:{ rewrite (while_abort _ _ _ _ _ _ _ _ _ Hlt
                 (tick_no_ip env device interval w Hip)) in H.
      injection H as <- <-.
      exists []. rewrite app_nil_r. repeat constructor. }
  destruct (tick_returns env device interval a w Hip ltac:(lia))
    as (w1 & Ht & Hnow & _ & _ & Hl).
  rewrite (while_continue _ _ _ _ _ _ _ _ Hlt Ht) in H.
  destruct (Hsane (pings w)) as [Hlag _].
  destruct (Hsane (sleeps w)) as [_ Hover].
  apply IH in H as (new & Hnew & Hge & Hsorted).
  assert (Hlater : Forall (fun o => now w <= timestamp o) new).
  { eapply Forall_impl; [exact Hge|]. intros o Ho. cbn in Ho. lia. }
  destruct Hl as [(e & _ & Hl) | (rc & _ & Hl)]; rewrite Hl in Hnew.
  - exists new. split; [exact Hnew|]. split; assumption.
  - eexists (_ :: new). split; [rewrite Hnew, <- app_assoc; reflexivity|].
    split.
    + constructor; [cbn; lia | exact Hlater].
    + cbn [map]. constructor; [exact Hsorted|].
      apply Forall_map. eapply Forall_impl; [exact Hge|].
      intros o Ho. cbn in *. lia.
Qed.

(** X14. The observations one call of [track_device] appends are in the
    order of their timestamps, which increase strictly and are not before
    the start of the call; this for every duration, with an interval above
    0, a clock that never runs backwards and sleeps that last at least as
    long as asked. *)
Theorem timestamps_increase (fuel : nat) (device : Device)
    (interval duration : Z) (w : World) (r : result unit) (w' : World) :
  env_sane env ->
  0 < interval ->
  track_device env fuel device interval duration w = Some (r, w') ->
  exists new : list Observation,
    device_logs w' = (device_logs w ++ new)%list /\
    Forall (fun o => now w <= timestamp o) new /\
    StronglySorted Z.lt (map timestamp new).
Proof.
  intros Hsane Hint H. rewrite track_device_unfold in H.
  apply (while_sorted device interval duration (now w) Hsane Hint) in H.
  exact H.
Qed.

Lemma log_lines_app (l1 l2 : list Observation) :
  log_lines (l1 ++ l2) = log_lines l1 ++ log_lines l2.
Proof.
  induction l1 as [|o l1 IH]; [reflexivity|].
  change (log_line o ++ log_lines (l1 ++ l2)
          = (log_line o ++ log_lines l1) ++ log_lines l2).
  rewrite IH, append_assoc. reflexivity.
Qed.

Lemma while_file_trace (device : Device) (interval duration start_time : Z) :
  forall (fuel : nat) (w : World) (r : result unit) (w' : World),
    while fuel (within start_time duration) (tick env device interval) w
      = Some (r, w') ->
    exists new kept : list Observation,
      device_logs w' = (device_logs w ++ new)%list /\
      sublist kept new /\
      log_content w' = log_content w ++ log_lines kept /\
      ((forall n : nat, file_fault env n = None) -> kept = new).
Proof.
  induction fuel as [|fuel IH]; intros w r w' H; [discriminate|].
  cbn [while] in H. unfold within at 1, bind, time_time, ret in H.
  destruct (now w - start_time <? duration).
  2:{ injection H as <- <-. exists [], []. rewrite app_nil_r.
      split; [reflexivity|]. split; [constructor|].
      split; [symmetry; apply append_empty_r | reflexivity]. }
  destruct (tick env device interval w) as [r1 w1] eqn:Ht.
  assert (Hstep : exists new kept : list Observation,
             device_logs w1 = (device_logs w ++ new)%list /\
             sublist kept new /\
             log_content w1 = log_content w ++ log_lines kept /\
             ((forall n : nat, file_fault env n = None) -> kept = new)).
  { apply tick_log_effect in Ht
      as [(_ & Hl & Hc)
         | (a & rc & _ & _ & Hl & [[_ Hc] | (e & He & Hc)])].
    - exists [], []. rewrite app_nil_r. split; [exact Hl|].
      split; [constructor|]. split; [|reflexivity].
      rewrite Hc. symmetry. apply append_empty_r.
    - eexists [_], [_]. split; [exact Hl|]. split; [reflexivity|].
      split; [|reflexivity]. rewrite Hc.
      change (log_lines [?o]) with (log_line o ++ "").
      rewrite append_empty_r. reflexivity.
    - eexists [_], []. split; [exact Hl|].
      split; [apply sublist_cons; constructor|].
      split; [rewrite Hc; symmetry; apply append_empty_r|].
      intros Hnone. rewrite Hnone in He. discriminate He. }
  destruct Hstep as (new1 & kept1 & Hl1 & Hs1 & Hc1 & He1).
  assert (Hrest : exists new kept : list Observation,
             device_logs w' = (device_logs w1 ++ new)%list /\
             sublist kept new /\
             log_content w' = log_content w1 ++ log_lines kept /\
             ((forall n : nat, file_fault env n = None) -> kept = new)).
  { destruct r1 as [[]|e].
    - apply IH in H. exact H.
    - injection H as <- <-. exists [], []. rewrite app_nil_r.
      split; [reflexivity|]. split; [constructor|].
      split; [symmetry; apply append_empty_r | reflexivity]. }
  destruct Hrest as (new2 & kept2 & Hl2 & Hs2 & Hc2 & He2).
  exists (new1 ++ new2)%list, (kept1 ++ kept2)%list.
  split; [rewrite Hl2, Hl1, app_assoc; reflexivity|].
  split; [apply sublist_app; assumption|].
  split.
  - rewrite Hc2, Hc1, log_lines_app, append_assoc. reflexivity.
  - intros Hnone. rewrite (He1 Hnone), (He2 Hnone). reflexivity.
Qed.


(** X16. When no write to the log file fails, a call of [track_device]
    appends to the file exactly the lines of the observations it appends
    to the log in memory, in the same order; memory and file that were in
    step before the call are in step after it. *)
Theorem track_device_logs_every_observation (fuel : nat) (device : Device)
    (interval duration : Z) (w : World) (r : result unit) (w' : World) :
  (forall n : nat, file_fault env n = None) ->
  track_device env fuel device interval duration w = Some (r, w') ->
  (exists new : list Observation,
      device_logs w' = (device_logs w ++ new)%list /\
      log_content w' = log_content w ++ log_lines new) /\
  (in_step w -> in_step w').
Proof.
  intros Hnone H. rewrite track_device_unfold in H.
  apply while_file_trace in H as (new & kept & Hl & _ & Hc & He).
  rewrite (He Hnone) in Hc. cbn in Hl, Hc. split.
  - exists new. split; assumption.
  - intros [before Hw]. exists before.
    rewrite Hc, Hl, Hw, log_lines_app, append_assoc. reflexivity.
Qed.

End PollerDetails.

(** * Properties of the program *)

Section ProgramDetails.

Context {RT : PyRuntime} (env : Env).

Lemma bind_ok {A B} (m : M A) (k : A -> M B) (w : World) (a : A) (w' : World) :
  m w = (Ok a, w') -> bind m k w = k a w'.
Proof. intros H. unfold bind. rewrite H. reflexivity. Qed.

Lemma print_discovered_ok (l : list Device) :
  Forall scanned l ->
  forall w : World,
    exists printed : list string,
      print_discovered l w = (Ok tt, set_console (console w ++ printed) w).
Proof.
  unfold print_discovered.
  induction 1 as [|d l [[a Ha] [m Hm]] Hl IH]; intros w; cbn [for_each].
  - exists []. unfold ret. rewrite app_nil_r. destruct w; reflexivity.
  - destruct (IH (set_console (console w ++ ["IP: " ++ a ++ ", MAC: " ++ m]) w))
      as [printed Hp].
    exists (("IP: " ++ a ++ ", MAC: " ++ m) :: printed).
    unfold bind at 1. unfold bind at 1, getitem at 1. rewrite Ha.
    unfold ret at 1. unfold bind at 1, getitem at 1. rewrite Hm.
    unfold ret at 1, print at 1. rewrite Hp. cbn.
    rewrite <- app_assoc. reflexivity.
Qed.

(** What the summary does to the world. *)
Lemma display_tracking_summary_effect (w : World) :
  display_tracking_summary w =
    (Ok tt, set_console (console w ++ summary_lines (device_logs w)) w).
Proof.
  unfold display_tracking_summary, summary_lines.
  destruct (device_logs w) as [|o l] eqn:Hlogs; [reflexivity|].
  unfold bind at 1. unfold print at 1. rewrite for_each_print_blocks. cbn.
  rewrite <- app_assoc. reflexivity.
Qed.

(** The statements of [main] before the tracking, from a new tracker. *)
Lemma main_select_spec (typed : string) (w : World) :
  tracked_devices w = [] ->
  exists w1 : World,
    device_logs w1 = device_logs w /\ log_content w1 = log_content w /\
    now w1 = now w /\ pings w1 = pings w /\ writes w1 = writes w /\
    ((main_select env typed w = (Ok None, w1) /\ tracked_devices w1 = []) \/
     (exists d : Device,
         main_select env typed w = (Ok (Some d), w1) /\
         tracked_devices w1 = [d] /\ wellformed d /\ answers typed d)).
Proof.
  intros Hempty.
  set (wA := set_console (console w ++ ["Scanning network for devices..."]) w).
  destruct (detect_wellformed env wA) as (devs & wB & Escan & Hwf & _).
  pose proof (detect_frame env wA) as HfB. rewrite Escan in HfB. cbn in HfB.
  destruct HfB as ((HtB & HlB & HcB & HnB) & HpB & HwB & _).
  set (wC := set_console (console wB ++ [PyStr.nl ++ "Discovered Devices:"]) wB).
  destruct (print_discovered_ok devs
              ltac:(eapply Forall_impl; [exact Hwf | exact wellformed_scanned]) wC)
    as [printed Hdisc].
  set (wD := set_console (console wC ++ printed) wC) in Hdisc.
  set (wE := set_console
               (console wD ++
                  [PyStr.nl ++ "Enter the IP of the device you want to track: "]) wD).
  assert (HtE : tracked_devices wE = []) by (cbn; rewrite HtB; exact Hempty).
  assert (HlE : device_logs wE = device_logs w) by (cbn; rewrite HlB; reflexivity).
  assert (HcE : log_content wE = log_content w) by (cbn; rewrite HcB; reflexivity).
  assert (HnE : now wE = now w) by (cbn; rewrite HnB; reflexivity).
  assert (HpE : pings wE = pings w) by (cbn; rewrite HpB; reflexivity).
  assert (HwE : writes wE = writes w) by (cbn; rewrite HwB; reflexivity).
  assert (Hmain : main_select env typed w =
                  bind (add_device_to_track env typed)
                    (fun added : bool =>
                       if added
                       then bind first_tracked (fun device => ret (Some device))
                       else ret None) wE).
  { unfold main_select.
    rewrite (bind_ok _ _ w tt wA) by reflexivity.
    rewrite (bind_ok _ _ wA devs wB Escan).
    rewrite (bind_ok _ _ wB tt wC) by reflexivity.
    rewrite (bind_ok _ _ wC tt wD Hdisc).
    rewrite (bind_ok _ _ wD tt wE) by reflexivity.
    reflexivity. }
  rewrite Hmain. clear Hmain. clearbody wE.
  destruct (add_device_to_track_cases env typed wE)
    as [[_ E] | [(_ & Hkey & _) | (_ & _ & devs2 & wF & Escan2 & Hwf2 & H)]].
  - eexists. refine (conj _ (conj _ (conj _ (conj _ (conj _ _))))).
    6:{ left. split; [rewrite (bind_ok _ _ _ _ _ E); reflexivity|]. exact HtE. }
    all: cbn; congruence.
  - unfold tracked_keys in Hkey. rewrite HtE in Hkey. inversion Hkey.
  - pose proof (detect_frame env wE) as HfF. rewrite Escan2 in HfF. cbn in HfF.
    destruct HfF as ((HtF & HlF & HcF & HnF) & HpF & HwF & _).
    destruct H as [[_ E] | (before & d & after & Hdev & Hans & _ & E)].
    + eexists. refine (conj _ (conj _ (conj _ (conj _ (conj _ _))))).
      6:{ left. split; [rewrite (bind_ok _ _ _ _ _ E); reflexivity|].
          cbn. rewrite HtF. exact HtE. }
      all: cbn in *; congruence.
    + eexists. refine (conj _ (conj _ (conj _ (conj _ (conj _ _))))).
      6:{ right. exists d. split.
          - rewrite (bind_ok _ _ _ _ _ E).
            unfold bind, first_tracked, item. cbn. rewrite HtF, HtE.
            reflexivity.
          - split; [reflexivity|].
            split; [|exact Hans].
            rewrite Hdev in Hwf2. apply Forall_app in Hwf2 as [_ Hwf2].
            inversion Hwf2; assumption. }
      all: cbn in *; congruence.
Qed.

Lemma tick_keeps_registry (device : Device) (interval : Z) (w : World) :
  tracked_devices (snd (tick env device interval w)) = tracked_devices w.
Proof.
  unfold tick, try_except, poll, report, bind, platform_system, getitem,
    ret, raise, subprocess_run, time_time, append_to_log_file, print,
    time_sleep, is_Exception.
  destruct (device !! "ip") as [a|]; cbn; [|reflexivity].
  destruct (ping_tool env (ping_argv (system_name env) a) (pings w)); cbn.
  - destruct (file_fault env (writes w)); cbn;
      destruct (interval <? 0); reflexivity.
  - destruct (interval <? 0); reflexivity.
Qed.

Lemma while_keeps_registry (device : Device) (interval duration start_time : Z) :
  forall (fuel : nat) (w : World) (r : result unit) (w' : World),
    while fuel (within start_time duration) (tick env device interval) w
      = Some (r, w') ->
    tracked_devices w' = tracked_devices w.
Proof.
  induction fuel as [|fuel IH]; intros w r w' H; [discriminate|].
  cbn [while] in H. unfold within at 1, bind, time_time, ret in H.
  destruct (now w - start_time <? duration); [|injection H as <- <-; reflexivity].
  pose proof (tick_keeps_registry device interval w) as Ht.
  destruct (tick env device interval w) as [[[]|e] w1]; cbn in Ht.
  - apply IH in H. congruence.
  - injection H as <- <-. exact Ht.
Qed.

(** X17. [main] terminates and raises nothing, whatever is typed and
    whatever the scans find, in an environment whose clock never runs
    backwards and whose sleeps last at least as long as asked: listing the
    discovered devices meets no missing key, [tracked_devices[0]] exists
    whenever the request was accepted, and the device it names has an
    ip. *)
Theorem main_terminates (typed : string) (w : World) :
  env_sane env ->
  exists (fuel : nat) (w' : World),
    forall fuel' : nat, (fuel <= fuel')%nat ->
      main env fuel' typed w = Some (Ok tt, w').
Proof.
  intros Hsane. unfold main.
  set (tracker := set_tracked_devices [] (set_device_logs [] w)).
  destruct (main_select_spec typed tracker eq_refl)
    as (w1 & _ & _ & _ & _ & _ & [[E _] | (d & E & _ & Hwf & _)]); rewrite E.
  - exists 0%nat, w1. reflexivity.
  - destruct Hwf as (a & _ & Hip & _).
    destruct (while_terminates env d 60 3600 (now w1) a Hip Hsane ltac:(lia)
                (Z.to_nat 3600)
                (set_console (console w1 ++ [starting_line d]) w1))
      as (w2 & Hw & _); [cbn; lia|].
    eexists (S (Z.to_nat 3600)), _. intros fuel' Hle.
    rewrite track_device_unfold. unfold starting_line in Hw.
    rewrite (while_more_fuel _ _ _ _ _ _ Hw Hle).
    apply f_equal. apply display_tracking_summary_effect.
Qed.

(** X18. What [main] leaves behind when it ends: it returns normally, and
    either the request was refused, and then no device is tracked, no ping
    was run and the log in memory and the log file are untouched; or
    exactly one device is tracked, a well-formed device that answers to
    the identifier typed, every observation in memory was built from that
    device, and the last thing printed is the summary of all of them. *)
Theorem main_outcome (fuel : nat) (typed : string) (w : World)
    (r : result unit) (w' : World) :
  main env fuel typed w = Some (r, w') ->
  r = Ok tt /\
  ((tracked_devices w' = [] /\ device_logs w' = [] /\
    pings w' = pings w /\ writes w' = writes w /\
    log_content w' = log_content w) \/
   (exists d : Device,
       tracked_devices w' = [d] /\ wellformed d /\ answers typed d /\
       Forall (built_by env d) (device_logs w') /\
       exists earlier : list string,
         console w' = (earlier ++ summary_lines (device_logs w'))%list)).
Proof.
  unfold main.
  set (tracker := set_tracked_devices [] (set_device_logs [] w)).
  destruct (main_select_spec typed tracker eq_refl)
    as (w1 & Hl1 & Hc1 & _ & Hp1 & Hw1
        & [[E Ht1] | (d & E & Ht1 & Hwf & Hans)]); rewrite E.
  - intros [= <- <-]. split; [reflexivity|]. left.
    repeat split; assumption.
  - destruct (track_device env fuel d 60 3600 w1) as [[r2 w2]|] eqn:Hrun;
      [|discriminate].
    pose proof Hrun as Hrun'. rewrite track_device_unfold in Hrun'.
    destruct Hwf as (a & m & Hip & Hrest).
    destruct (while_only_exit env d 60 3600 (now w1) a Hip ltac:(lia) _ _ _ _ Hrun')
      as [-> _].
    pose proof (while_keeps_registry _ _ _ _ _ _ _ _ Hrun') as Ht2.
    apply while_logs_built in Hrun' as (new & Hl2 & Hbuilt).
    cbn in Ht2, Hl2. rewrite Hl1 in Hl2. cbn in Hl2.
    rewrite display_tracking_summary_effect. intros [= <- <-].
    split; [reflexivity|]. right. exists d. cbn.
    split; [congruence|]. split; [exists a, m; split; assumption|].
    split; [exact Hans|]. split; [rewrite Hl2; exact Hbuilt|].
    eexists. reflexivity.
Qed.

End ProgramDetails.

(** * The further properties on the sample environments *)

Section MoreScenarios.

#[local] Existing Instance Sample.runtime.

Lemma nmap_parse_error_drops_devices_witness :
  nmap_rows
    (PyStr.split PyStr.nl
       ("Nmap scan report for 192.168.1.50" ++ PyStr.nl ++
        "MAC Address: AA:BB:CC:DD:EE:FF (Vendor)" ++ PyStr.nl ++
        "Nmap scan report for 192.168.1.51" ++ PyStr.nl ++
        "MAC Address:" ++ PyStr.nl)) None []
    = ([Sample.device], Some IndexError) /\
  detect_network_devices Sample.half_parsed (init "" 0) =
    (Ok [], set_console [scan_error_line IndexError] (after_scan (init "" 0))).
Proof.
  split; [vm_compute; reflexivity|].
  apply (nmap_parse_error_drops_devices Sample.half_parsed (init "" 0)
           ("Nmap scan report for 192.168.1.50" ++ PyStr.nl ++
            "MAC Address: AA:BB:CC:DD:EE:FF (Vendor)" ++ PyStr.nl ++
            "Nmap scan report for 192.168.1.51" ++ PyStr.nl ++
            "MAC Address:" ++ PyStr.nl)
           [Sample.device] IndexError).
  - reflexivity.
  - reflexivity.
  - vm_compute. reflexivity.
Defined.

Lemma arp_table_parsing_witness :
  detect_network_devices Sample.windows (init "" 0) =
    (Ok (omap arp_row (drop 3 (PyStr.split PyStr.nl Sample.arp_output))),
     after_scan (init "" 0)) /\
  (List.length (omap arp_row (drop 3 (PyStr.split PyStr.nl Sample.arp_output)))
   <= List.length (PyStr.split PyStr.nl Sample.arp_output) - 3)%nat.
Proof.
  apply (arp_table_parsing Sample.windows (init "" 0) Sample.arp_output).
  - reflexivity.
  - reflexivity.
Defined.

Lemma scan_tool_failure_reported_witness :
  detect_network_devices Sample.no_arp (init "" 0) =
    (Ok [],
     set_console [scan_error_line (FileNotFoundError "arp")]
       (after_scan (init "" 0))).
Proof.
  apply (scan_tool_failure_reported Sample.no_arp (init "" 0)
           (FileNotFoundError "arp")).
  - reflexivity.
  - reflexivity.
Defined.

Lemma refused_without_scan_witness :
  add_device_to_track Sample.windows "" (init "" 0) =
    (Ok false, set_console ["Invalid device identifier"] (init "" 0)).
Proof.
  apply (refused_without_scan Sample.windows "" (init "" 0)).
  left. reflexivity.
Defined.

Lemma add_keeps_registry_wellformed_witness :
  Forall wellformed
    (tracked_devices
       (snd (add_device_to_track Sample.linux "192.168.1.50" (init "" 0)))).
Proof.
  apply (add_keeps_registry_wellformed Sample.linux "192.168.1.50" (init "" 0)).
  simpl. constructor.
Defined.

Lemma add_by_ip_keeps_keys_unique_witness :
  NoDup
    (tracked_keys
       (snd (add_device_to_track Sample.linux "192.168.1.50" (init "" 0)))).
Proof.
  apply (add_by_ip_keeps_keys_unique Sample.linux "192.168.1.50" (init "" 0)
           [Sample.device] (after_scan (init "" 0))).
  - simpl. constructor.
  - vm_compute. reflexivity.
  - intros d Hd H. apply list_elem_of_singleton in Hd. subst d.
    vm_compute in H. discriminate H.
Defined.

Lemma track_device_no_duration_witness :
  track_device Sample.windows 1 Sample.device 60 0 (init "" 0) =
    Some (Ok tt, set_console [starting_line Sample.device] (init "" 0)).
Proof.
  apply (track_device_no_duration Sample.windows 1 Sample.device 60 0 (init "" 0));
    lia.
Defined.

Lemma track_device_without_ip_witness :
  track_device Sample.windows 1 ∅ 60 3600 (init "" 0) =
    Some (Raise (KeyError "ip"), set_console [starting_line ∅] (init "" 0)).
Proof.
  apply (track_device_without_ip Sample.windows 1 ∅ 60 3600 (init "" 0)).
  - reflexivity.
  - lia.
  - lia.
Defined.


Lemma tick_count_bounded_witness :
  exists (r : result unit) (w' : World),
    track_device Sample.windows 4 Sample.device 60 170 (init "" 0) = Some (r, w') /\
    (pings w' <= 0 + 3)%nat /\
    (List.length (device_logs w') <= 0 + 3)%nat.
Proof.
  eexists _, _. split; [vm_compute; reflexivity|].
  apply (tick_count_bounded Sample.windows 4 Sample.device 60 170 3 (init "" 0)
           (Ok tt)).
  - intros n. simpl. lia.
  - lia.
  - lia.
  - vm_compute. reflexivity.
Defined.

Lemma timestamps_increase_witness :
  exists (r : result unit) (w' : World),
    track_device Sample.flaky 4 Sample.device 60 170 (init "" 1000) = Some (r, w') /\
    exists new : list Observation,
      device_logs w' = ([] ++ new)%list /\
      Forall (fun o => 1000 <= timestamp o) new /\
      StronglySorted Z.lt (map timestamp new).
Proof.
  eexists _, _. split; [vm_compute; reflexivity|].
  apply (timestamps_increase Sample.flaky 4 Sample.device 60 170 (init "" 1000)
           (Ok tt)).
  - intros n. simpl. lia.
  - lia.
  - vm_compute. reflexivity.
Defined.


Lemma track_device_logs_every_observation_witness :
  exists (r : result unit) (w' : World),
    track_device Sample.windows 4 Sample.device 60 170 (init "" 1000) = Some (r, w') /\
    in_step w'.
Proof.
  eexists _, _. split; [vm_compute; reflexivity|].
  apply (track_device_logs_every_observation Sample.windows 4 Sample.device 60 170
           (init "" 1000) (Ok tt)).
  - intros n. reflexivity.
  - vm_compute. reflexivity.
  - exists "". reflexivity.
Defined.

Lemma main_terminates_witness :
  exists (fuel : nat) (w' : World),
    forall fuel' : nat, (fuel <= fuel')%nat ->
      main Sample.linux fuel' "192.168.1.50" (init "" 0) = Some (Ok tt, w').
Proof.
  apply (main_terminates Sample.linux "192.168.1.50" (init "" 0)).
  intros n. simpl. lia.
Defined.

Lemma main_outcome_witness :
  exists (r : result unit) (w' : World),
    main Sample.linux 61 "192.168.1.50" (init "" 0) = Some (r, w') /\
    r = Ok tt /\
    tracked_devices w' = [Sample.device] /\
    List.length (device_logs w') = 60%nat.
Proof.
  eexists _, _. split; [vm_compute; reflexivity|].
  split; [|split; vm_compute; reflexivity].
  refine (proj1 (main_outcome Sample.linux 61 "192.168.1.50" (init "" 0) _ _ _)).
  vm_compute. reflexivity.
Defined.

(** [main] with an identifier that is on no device of the network: the
    request is refused and nothing is tracked. *)
Example main_refused :
  exists w' : World,
    main Sample.linux 0 "10.0.0.9" (init "" 0) = Some (Ok tt, w') /\
    tracked_devices w' = [] /\ pings w' = 0%nat /\ scans w' = 2%nat.
Proof. eexists. split; [vm_compute; reflexivity|]. repeat split. Qed.

End MoreScenarios.
